(** * Logistics-System.py: the sales-order logistics lookup handler

    A shallow embedding of [src/SAP Logistics/Logistics-System.py] and the
    properties of its request pipeline: event validation, path routing,
    parameter extraction, the DynamoDB query and the response envelope.

    How the program is modelled:
    - values are Python values ([Py.pyval]); an event is any of them, a
      [dict] is an association list in insertion order;
    - an exception is a value of [Eff.exn], told apart by the classes the
      [except] clauses of the source test for;
    - a function of the source is a computation in [Eff.M]: it yields the
      records it hands to the logger and the calls it makes on DynamoDB, in
      order, together with the value it returns or the exception it raises;
    - DynamoDB is a parameter ([Logistics.dynamodb]): what opening a table
      and what a query give, a response or an exception.

    Layout:
    - [Text]: helper functions on strings;
    - [Py], [PyOps]: the fragment of Python's data model the handler touches
      (truthiness, [in], subscripting, [dict.get], iteration, [str]/[repr]);
    - [Eff]: exceptions and effects;
    - [Json]: [json.dumps] with its default settings;
    - [Logistics]: the five functions of the source file;
    - [Envelope], [Spec], [Examples]: the vocabulary of the properties and
      concrete inputs;
    - the facts and the properties. *)

From Stdlib Require Import ZArith List String Ascii Bool Lia DecimalString.
Import ListNotations.
Local Open Scope list_scope.
Local Open Scope string_scope.
Set Warnings "-register-all".

(* ===================================================================== *)
(** ** Text helpers *)
(* ===================================================================== *)

Module Text.

(** The two characters that cannot be written inside a literal. *)
Definition dquote : ascii := "034"%char.
Definition bslash : ascii := "092"%char.

Definition chr (c : ascii) : string := String c EmptyString.

(** [sep.join(parts)]. *)
Fixpoint join (sep : string) (parts : list string) : string :=
  match parts with
  | [] => EmptyString
  | [p] => p
  | p :: rest => p ++ sep ++ join sep rest
  end.

(** [needle in haystack] for two [str] values: a substring test. *)
Fixpoint contains (needle haystack : string) : bool :=
  prefix needle haystack ||
  match haystack with
  | EmptyString => false
  | String _ rest => contains needle rest
  end.

Definition has_char (c : ascii) (s : string) : bool :=
  existsb (Ascii.eqb c) (list_ascii_of_string s).

Definition hex_digit (n : nat) : ascii :=
  nth n (list_ascii_of_string "0123456789abcdef") "0"%char.

(** Two lower-case hexadecimal digits of a character code. *)
Definition hex2 (c : ascii) : string :=
  let n := nat_of_ascii c in
  String (hex_digit (n / 16)) (String (hex_digit (n mod 16)) EmptyString).

(** The images of the characters of [s] under [f], concatenated. *)
Fixpoint flat_map_string (f : ascii -> string) (s : string) : string :=
  match s with
  | EmptyString => EmptyString
  | String c rest => f c ++ flat_map_string f rest
  end.

(** [occurs x s]: the text [x] occurs in [s] as a contiguous piece. *)
Definition occurs (x s : string) : Prop :=
  exists pre post, s = pre ++ x ++ post.

End Text.

(* ===================================================================== *)
(** ** The Python fragment *)
(* ===================================================================== *)

Module Py.

(** A [float] is kept as what the handler can observe of it: its class,
    whether it is zero, and the text [repr] prints.  No arithmetic is done
    on floats anywhere in the source. *)
Inductive pyfloat : Type :=
| FNan
| FInf (negative : bool)
| FFinite (nonzero : bool) (repr : string).

(** Python values.  Events are JSON documents ([None], [bool], [int],
    [float], [str], [list], [dict] with [str] keys); the boto3 resource API
    returns DynamoDB numbers as [decimal.Decimal], which is the one value
    here that [json.dumps] refuses.  A [dict] keeps its insertion order, so
    it is an association list; lookups take the first entry of a key.
    A character of a [str] is a code point below 256. *)
Inductive pyval : Type :=
| PNone
| PBool (b : bool)
| PInt (n : Z)
| PFloat (f : pyfloat)
| PStr (s : string)
| PList (items : list pyval)
| PDict (entries : list (string * pyval))
| PDecimal (text : string) (nonzero : bool).

Definition pydict : Type := list (string * pyval).

(** [type(v).__name__] as it appears in the interpreter's error texts. *)
Definition type_name (v : pyval) : string :=
  match v with
  | PNone => "NoneType"
  | PBool _ => "bool"
  | PInt _ => "int"
  | PFloat _ => "float"
  | PStr _ => "str"
  | PList _ => "list"
  | PDict _ => "dict"
  | PDecimal _ _ => "decimal.Decimal"
  end.

(** [bool(v)]. *)
Definition truthy (v : pyval) : bool :=
  match v with
  | PNone => false
  | PBool b => b
  | PInt n => negb (n =? 0)%Z
  | PFloat (FFinite nz _) => nz
  | PFloat _ => true
  | PStr s => negb (s =? EmptyString)
  | PList l => match l with [] => false | _ => true end
  | PDict d => match d with [] => false | _ => true end
  | PDecimal _ nz => nz
  end.

(** [isinstance(v, str)]. *)
Definition isinstance_str (v : pyval) : bool :=
  match v with PStr _ => true | _ => false end.

(** [v == s] for a [str] literal [s]. *)
Definition eq_str (v : pyval) (s : string) : bool :=
  match v with PStr t => t =? s | _ => false end.

(** [d[key]] on the entries of a dict, [None] when the key is absent. *)
Fixpoint dict_get (key : string) (d : pydict) : option pyval :=
  match d with
  | [] => None
  | (k, v) :: rest => if k =? key then Some v else dict_get key rest
  end.

Definition dict_has (key : string) (d : pydict) : bool :=
  match dict_get key d with Some _ => true | None => false end.

(** *** [str] and [repr] *)

Definition float_repr (f : pyfloat) : string :=
  match f with
  | FNan => "nan"
  | FInf false => "inf"
  | FInf true => "-inf"
  | FFinite _ r => r
  end.

Definition int_repr (n : Z) : string := NilZero.string_of_int (Z.to_int n).

(** Code points below 256 that [str.isprintable] accepts. *)
Definition printable (c : ascii) : bool :=
  let n := nat_of_ascii c in
  ((32 <=? n)%nat && (n <? 127)%nat) || ((161 <=? n)%nat && negb (n =? 173)%nat).

Definition repr_char (quote : ascii) (c : ascii) : string :=
  if Ascii.eqb c quote || Ascii.eqb c Text.bslash then String Text.bslash (Text.chr c)
  else if Ascii.eqb c "009"%char then String Text.bslash "t"
  else if Ascii.eqb c "010"%char then String Text.bslash "n"
  else if Ascii.eqb c "013"%char then String Text.bslash "r"
  else if printable c then Text.chr c
  else String Text.bslash ("x" ++ Text.hex2 c).

(** [repr(s)] of a [str]: single quotes unless the text has a single quote
    and no double quote. *)
Definition str_repr (s : string) : string :=
  let quote :=
    if Text.has_char "'"%char s && negb (Text.has_char Text.dquote s)
    then Text.dquote else "'"%char in
  Text.chr quote ++ Text.flat_map_string (repr_char quote) s ++ Text.chr quote.

Fixpoint repr (v : pyval) : string :=
  match v with
  | PNone => "None"
  | PBool true => "True"
  | PBool false => "False"
  | PInt n => int_repr n
  | PFloat f => float_repr f
  | PStr s => str_repr s
  | PList l => "[" ++ Text.join ", " (map repr l) ++ "]"
  | PDict d =>
      "{" ++ Text.join ", " (map (fun kv => str_repr (fst kv) ++ ": " ++ repr (snd kv)) d) ++ "}"
  | PDecimal t _ => "Decimal('" ++ t ++ "')"
  end.

(** [str(v)], which is what an f-string field prints.  CPython raises where
    this does not: [RecursionError] on a value nested beyond the recursion
    limit, [ValueError] on an integer of more than 4300 digits.  A property
    that takes [str] of an arbitrary event value is stated for the values
    on which it cannot raise ([Spec.formats_plainly]). *)
Definition str (v : pyval) : string :=
  match v with
  | PStr s => s
  | PDecimal t _ => t
  | _ => repr v
  end.

End Py.

(* ===================================================================== *)
(** ** Exceptions and effects *)
(* ===================================================================== *)

Module Eff.

(** The exception classes the [except] clauses of the source tell apart:
    [ValueError], the file's own [LogisticsQueryError], botocore's
    [ClientError] (with [e.response['Error']['Code']] and
    [e.response['Error']['Message']]), and every other subclass of
    [Exception].  Each one carries the text [str(e)] gives. *)
Inductive exn : Type :=
| ValueError (msg : string)
| LogisticsQueryError (msg : string)
| ClientError (error_code error_message text : string)
| OtherException (cls text : string).

(** [str(e)]. *)
Definition exn_str (e : exn) : string :=
  match e with
  | ValueError m => m
  | LogisticsQueryError m => m
  | ClientError _ _ t => t
  | OtherException _ t => t
  end.

Definition TypeError (text : string) : exn := OtherException "TypeError" text.
Definition AttributeError (text : string) : exn := OtherException "AttributeError" text.
Definition KeyError (key : string) : exn := OtherException "KeyError" (Py.str_repr key).

Inductive level : Type := INFO | WARNING | ERROR.

(** What a run does besides returning: the records handed to the logger and
    the calls made on the DynamoDB resource. *)
Inductive effect : Type :=
| Log (lvl : level) (msg : string)
| OpenTable (table_name : string)
| Query (table_name key : string) (value : Py.pyval).

(** A computation: the effects so far, and an exception or a value. *)
Definition M (A : Type) : Type := (list effect * (exn + A))%type.

Definition ret {A : Type} (a : A) : M A := ([], inr a).
Definition raise {A : Type} (e : exn) : M A := ([], inl e).
Definition lift {A : Type} (r : exn + A) : M A := ([], r).
Definition emit (x : effect) : M unit := ([x], inr tt).
Definition log (lvl : level) (msg : string) : M unit := emit (Log lvl msg).

Definition bind {A B : Type} (m : M A) (f : A -> M B) : M B :=
  match m with
  | (t, inl e) => (t, inl e)
  | (t, inr a) => let (t', r) := f a in ((t ++ t')%list, r)
  end.

(** [try: m  except Exception as e: h e]; a handler that does not want an
    exception re-raises it. *)
Definition try_except {A : Type} (m : M A) (h : exn -> M A) : M A :=
  match m with
  | (t, inl e) => let (t', r) := h e in ((t ++ t')%list, r)
  | (t, inr a) => (t, inr a)
  end.

Definition trace {A : Type} (m : M A) : list effect := fst m.
Definition outcome {A : Type} (m : M A) : exn + A := snd m.

End Eff.

Declare Scope eff_scope.
Delimit Scope eff_scope with eff.
Notation "x <- m ;; k" := (Eff.bind m (fun x => k))
  (at level 61, m at next level, right associativity) : eff_scope.
Notation "m ;; k" := (Eff.bind m (fun _ => k))
  (at level 61, right associativity) : eff_scope.

(** *** Python operations that can raise *)

Module PyOps.
Import Py Eff.

(** [key in container]. *)
Definition contains (key : string) (container : pyval) : exn + bool :=
  match container with
  | PDict d => inr (dict_has key d)
  | PList l => inr (existsb (fun x => eq_str x key) l)
  | PStr s => inr (Text.contains key s)
  | _ => inl (TypeError ("argument of type '" ++ type_name container ++ "' is not iterable"))
  end.

(** [v[key]] with a [str] key. *)
Definition getitem (v : pyval) (key : string) : exn + pyval :=
  match v with
  | PDict d =>
      match dict_get key d with
      | Some x => inr x
      | None => inl (KeyError key)
      end
  | PList _ => inl (TypeError "list indices must be integers or slices, not str")
  | PStr _ => inl (TypeError "string indices must be integers, not 'str'")
  | _ => inl (TypeError ("'" ++ type_name v ++ "' object is not subscriptable"))
  end.

(** [v.get(key, default)]: only a [dict] has the method. *)
Definition method_get (v : pyval) (key : string) (default : pyval) : exn + pyval :=
  match v with
  | PDict d =>
      match dict_get key d with
      | Some x => inr x
      | None => inr default
      end
  | _ => inl (AttributeError ("'" ++ type_name v ++ "' object has no attribute 'get'"))
  end.

(** The values [for x in v] runs through. *)
Definition iter (v : pyval) : exn + list pyval :=
  match v with
  | PList l => inr l
  | PDict d => inr (map (fun kv => PStr (fst kv)) d)
  | PStr s => inr (map (fun c => PStr (Text.chr c)) (list_ascii_of_string s))
  | _ => inl (TypeError ("'" ++ type_name v ++ "' object is not iterable"))
  end.

End PyOps.

(* ===================================================================== *)
(** ** [json.dumps] *)
(* ===================================================================== *)

Module Json.
Import Py Eff.

(** One character of a string under [ensure_ascii=True]. *)
Definition escape_char (c : ascii) : string :=
  let n := nat_of_ascii c in
  if Ascii.eqb c Text.dquote then String Text.bslash (Text.chr Text.dquote)
  else if Ascii.eqb c Text.bslash then String Text.bslash (Text.chr Text.bslash)
  else if (n =? 10)%nat then String Text.bslash "n"
  else if (n =? 13)%nat then String Text.bslash "r"
  else if (n =? 9)%nat then String Text.bslash "t"
  else if (n =? 8)%nat then String Text.bslash "b"
  else if (n =? 12)%nat then String Text.bslash "f"
  else if ((32 <=? n)%nat && (n <=? 126)%nat) then Text.chr c
  else String Text.bslash ("u00" ++ Text.hex2 c).

Definition escape (s : string) : string := Text.flat_map_string escape_char s.

Definition encode_str (s : string) : string :=
  Text.chr Text.dquote ++ escape s ++ Text.chr Text.dquote.

Definition encode_float (f : pyfloat) : string :=
  match f with
  | FNan => "NaN"
  | FInf false => "Infinity"
  | FInf true => "-Infinity"
  | FFinite _ r => r
  end.

(** Encoding the elements of a container in order, stopping at the first
    one that raises. *)
Section EncodeAll.
Context {A : Type} (encode : A -> exn + string).

Fixpoint encode_all (l : list A) : exn + list string :=
  match l with
  | [] => inr []
  | x :: rest =>
      match encode x with
      | inl e => inl e
      | inr t =>
          match encode_all rest with
          | inl e => inl e
          | inr ts => inr (t :: ts)
          end
      end
  end.

End EncodeAll.

(** A [key: value] member of an object, given the text of the value. *)
Definition member (key : string) (value : exn + string) : exn + string :=
  match value with
  | inl e => inl e
  | inr t => inr (encode_str key ++ ": " ++ t)
  end.

(** [json.dumps(v)] with the default separators [", "] and [": "], keys in
    insertion order; a [Decimal] anywhere raises [TypeError]. *)
Fixpoint dumps (v : pyval) : exn + string :=
  match v with
  | PNone => inr "null"
  | PBool true => inr "true"
  | PBool false => inr "false"
  | PInt n => inr (int_repr n)
  | PFloat f => inr (encode_float f)
  | PStr s => inr (encode_str s)
  | PList l =>
      match encode_all dumps l with
      | inl e => inl e
      | inr ts => inr ("[" ++ Text.join ", " ts ++ "]")
      end
  | PDict d =>
      match encode_all (fun kv => member (fst kv) (dumps (snd kv))) d with
      | inl e => inl e
      | inr ts => inr ("{" ++ Text.join ", " ts ++ "}")
      end
  | PDecimal _ _ => inl (TypeError "Object of type Decimal is not JSON serializable")
  end.

End Json.

(* ===================================================================== *)
(** ** The source file *)
(* ===================================================================== *)

Module Logistics.
Import Py Eff PyOps.
Local Open Scope eff_scope.

(** The DynamoDB service as the handler meets it.  [table_status name] is
    what [boto3.resource("dynamodb").Table(name).table_status] raises, if
    anything; [table_query name key v] is the outcome of
    [Table(name).query(KeyConditionExpression=Key(key).eq(v))], a response
    [dict] or an exception. *)
Record dynamodb : Type := {
  table_status : string -> option exn;
  table_query : string -> string -> pyval -> exn + pydict
}.

Section Handler.

Variable db : dynamodb.

(** [setup_dynamodb_table], lines 16-31.  The table handle is the name. *)
Definition setup_dynamodb_table (table_name : string) : M string :=
  try_except
    (emit (OpenTable table_name) ;;
     match table_status db table_name with
     | Some e => raise e
     | None => ret table_name
     end)
    (fun e =>
       match e with
       | ClientError error_code error_message _ =>
           log ERROR ("Failed to initialize DynamoDB table: "
                      ++ error_code ++ " - " ++ error_message) ;;
           raise (LogisticsQueryError ("Database initialization error: " ++ error_message))
       | _ =>
           log ERROR ("Unexpected error initializing DynamoDB: " ++ exn_str e) ;;
           raise (LogisticsQueryError "Failed to initialize database connection")
       end).

(** [query_logistic_db], lines 33-70. *)
Definition query_logistic_db (sales_id : pyval) : M pydict :=
  try_except
    (if negb (truthy sales_id) || negb (isinstance_str sales_id)
     then raise (ValueError "Invalid sales ID provided")
     else
       let table_name := "logistics" in
       orders_table <- setup_dynamodb_table table_name ;;
       log INFO ("Querying logistics data for order ID: " ++ str sales_id) ;;
       emit (Query orders_table "order_id" sales_id) ;;
       response <- lift (table_query db orders_table "order_id" sales_id) ;;
       if negb (dict_has "Items" response)
       then raise (LogisticsQueryError "Invalid response format from database")
       else
         items <- lift (getitem (PDict response) "Items") ;;
         (if negb (truthy items)
          then log WARNING ("No logistics data found for order ID: " ++ str sales_id)
          else ret tt) ;;
         ret response)
    (fun e =>
       match e with
       | ClientError error_code error_message _ =>
           log ERROR ("DynamoDB query error: " ++ error_code ++ " - " ++ error_message) ;;
           raise (LogisticsQueryError ("Database query error: " ++ error_message))
       | ValueError m =>
           log ERROR ("Input validation error: " ++ exn_str e) ;;
           raise e
       | _ =>
           log ERROR ("Unexpected error in query_logistic_db: " ++ exn_str e) ;;
           raise (LogisticsQueryError ("Failed to query logistics data: " ++ exn_str e))
       end).

(** [validate_event], lines 72-77. *)
Definition required_fields : list string := ["apiPath"; "actionGroup"; "httpMethod"].

Fixpoint check_fields (fields : list string) (event : pyval) : M unit :=
  match fields with
  | [] => ret tt
  | field :: rest =>
      present <- lift (contains field event) ;;
      if negb present
      then raise (ValueError ("Missing required field: " ++ field))
      else check_fields rest event
  end.

Definition validate_event (event : pyval) : M unit :=
  check_fields required_fields event.

(** [create_error_response], lines 79-91. *)
Definition create_error_response (error_message : string) (status_code : Z) : M pyval :=
  body <- lift (Json.dumps (PDict [("error", PStr error_message)])) ;;
  let response_body := PDict [("application/json", PDict [("body", PStr body)])] in
  ret (PDict [
    ("messageVersion", PStr "1.0");
    ("response", PDict [
      ("actionGroup", PStr "unknown");
      ("apiPath", PStr "unknown");
      ("httpMethod", PStr "unknown");
      ("httpStatusCode", PInt status_code);
      ("responseBody", response_body)])]).

(** The loop of lines 104-109: the value left in [sales_id]. *)
Fixpoint scan_parameters (parameters : list pyval) : M pyval :=
  match parameters with
  | [] => ret PNone
  | parameter :: rest =>
      name <- lift (method_get parameter "name" PNone) ;;
      if eq_str name "SalesOrderID"
      then lift (method_get parameter "value" PNone)
      else scan_parameters rest
  end.

(** [lambda_handler], lines 93-143. *)
Definition lambda_handler (event context : pyval) : M pyval :=
  try_except
    (validate_event event ;;
     logged_path <- lift (getitem event "apiPath") ;;
     log INFO ("Processing request for API path: " ++ str logged_path) ;;
     api_path <- lift (getitem event "apiPath") ;;
     body <-
       (if eq_str api_path "/salesorder/{SalesOrderID}"
        then
          parameters <- lift (method_get event "parameters" (PList [])) ;;
          entries <- lift (iter parameters) ;;
          sales_id <- scan_parameters entries ;;
          if negb (truthy sales_id)
          then raise (ValueError "SalesOrderID parameter is missing or invalid")
          else query_logistic_db sales_id
        else
          warned_path <- lift (getitem event "apiPath") ;;
          log WARNING ("Invalid API path requested: " ++ str warned_path) ;;
          raised_path <- lift (getitem event "apiPath") ;;
          raise (ValueError ("Invalid API path: " ++ str raised_path))) ;;
     text <- lift (Json.dumps (PDict body)) ;;
     let response_body := PDict [("application/json", PDict [("body", PStr text)])] in
     action_group <- lift (getitem event "actionGroup") ;;
     api_path' <- lift (getitem event "apiPath") ;;
     http_method <- lift (getitem event "httpMethod") ;;
     let action_response := PDict [
       ("actionGroup", action_group);
       ("apiPath", api_path');
       ("httpMethod", http_method);
       ("httpStatusCode", PInt 200);
       ("responseBody", response_body)] in
     ret (PDict [("messageVersion", PStr "1.0"); ("response", action_response)]))
    (fun e =>
       match e with
       | ValueError _ =>
           log ERROR ("Validation error: " ++ exn_str e) ;;
           create_error_response (exn_str e) 400
       | LogisticsQueryError _ =>
           log ERROR ("Logistics query error: " ++ exn_str e) ;;
           create_error_response (exn_str e) 500
       | _ =>
           log ERROR ("Unexpected error: " ++ exn_str e) ;;
           create_error_response "Internal server error" 500
       end).

End Handler.

End Logistics.

(* ===================================================================== *)
(** ** Vocabulary of the properties *)
(* ===================================================================== *)

Module Envelope.
Import Py Eff PyOps.

(** The response envelope with every field given. *)
Definition make (action_group api_path http_method : pyval)
    (status : Z) (body : string) : pyval :=
  PDict [
    ("messageVersion", PStr "1.0");
    ("response", PDict [
      ("actionGroup", action_group);
      ("apiPath", api_path);
      ("httpMethod", http_method);
      ("httpStatusCode", PInt status);
      ("responseBody", PDict [("application/json", PDict [("body", PStr body)])])])].

(** The text [json.dumps({"error": message})] produces. *)
Definition error_text (message : string) : string :=
  "{" ++ (Json.encode_str "error" ++ ": " ++ Json.encode_str message) ++ "}".

(** The envelope of an error outcome. *)
Definition error (message : string) (status : Z) : pyval :=
  make (PStr "unknown") (PStr "unknown") (PStr "unknown") status (error_text message).

(** Field [name] of [envelope["response"]]. *)
Definition response_field (name : string) (envelope : pyval) : option pyval :=
  match envelope with
  | PDict top =>
      match dict_get "response" top with
      | Some (PDict r) => dict_get name r
      | _ => None
      end
  | _ => None
  end.

Definition status_code (envelope : pyval) : option Z :=
  match response_field "httpStatusCode" envelope with
  | Some (PInt c) => Some c
  | _ => None
  end.

(** [envelope["response"]["responseBody"]["application/json"]["body"]]. *)
Definition body (envelope : pyval) : option string :=
  match response_field "responseBody" envelope with
  | Some (PDict rb) =>
      match dict_get "application/json" rb with
      | Some (PDict content) =>
          match dict_get "body" content with
          | Some (PStr s) => Some s
          | _ => None
          end
      | _ => None
      end
  | _ => None
  end.

(** The body text of the envelope a run returned. *)
Definition body_of_run (run : Eff.M pyval) : option string :=
  match Eff.outcome run with
  | inr envelope => body envelope
  | inl _ => None
  end.

(** A well-formed envelope, as a shape: version ["1.0"], a status among 200,
    400 and 500, and a [responseBody] whose only key is ["application/json"],
    holding a mapping whose only key [body] holds a string.  What that
    string serializes is said with [serializes]. *)
Definition well_formed (envelope : pyval) : Prop :=
  exists top status text,
    envelope = PDict top /\
    dict_get "messageVersion" top = Some (PStr "1.0") /\
    status_code envelope = Some status /\
    (status = 200 \/ status = 400 \/ status = 500)%Z /\
    response_field "responseBody" envelope
      = Some (PDict [("application/json", PDict [("body", PStr text)])]).

(** The body of [envelope] is the text [json.dumps(payload)] returns. *)
Definition serializes (envelope payload : pyval) : Prop :=
  exists text, body envelope = Some text /\ Json.dumps payload = inr text.

End Envelope.

(** *** Names for the blocks of [lambda_handler] and for its inputs *)

Module Spec.
Import Py Eff PyOps Logistics.
Local Open Scope eff_scope.

Definition supported_path : string := "/salesorder/{SalesOrderID}".

(** The three [except] clauses of [lambda_handler], lines 135-143. *)
Definition except_clauses (e : exn) : M pyval :=
  match e with
  | ValueError _ =>
      log ERROR ("Validation error: " ++ exn_str e) ;;
      create_error_response (exn_str e) 400
  | LogisticsQueryError _ =>
      log ERROR ("Logistics query error: " ++ exn_str e) ;;
      create_error_response (exn_str e) 500
  | _ =>
      log ERROR ("Unexpected error: " ++ exn_str e) ;;
      create_error_response "Internal server error" 500
  end.

(** Lines 120-133: the success envelope around a query result. *)
Definition respond (event : pyval) (body : pydict) : M pyval :=
  text <- lift (Json.dumps (PDict body)) ;;
  action_group <- lift (getitem event "actionGroup") ;;
  api_path <- lift (getitem event "apiPath") ;;
  http_method <- lift (getitem event "httpMethod") ;;
  ret (Envelope.make action_group api_path http_method 200 text).

(** Lines 103-115: parameter extraction followed by the query. *)
Definition extract_and_query (db : dynamodb) (event : pyval) : M pydict :=
  parameters <- lift (method_get event "parameters" (PList [])) ;;
  entries <- lift (iter parameters) ;;
  sales_id <- scan_parameters entries ;;
  if negb (truthy sales_id)
  then raise (ValueError "SalesOrderID parameter is missing or invalid")
  else query_logistic_db db sales_id.

(** The record line 99 hands to the logger. *)
Definition processing_record (api_path : pyval) : effect :=
  Log INFO ("Processing request for API path: " ++ str api_path).

(** An outcome of the [except] clauses. *)
Definition error_outcome (envelope : pyval) : Prop :=
  exists message status,
    (status = 400 \/ status = 500)%Z /\ envelope = Envelope.error message status.

(** An outcome of the handler's last statement. *)
Definition success_outcome (event envelope : pyval) : Prop :=
  exists action_group api_path http_method result text,
    getitem event "actionGroup" = inr action_group /\
    getitem event "apiPath" = inr api_path /\
    getitem event "httpMethod" = inr http_method /\
    Json.dumps (PDict result) = inr text /\
    envelope = Envelope.make action_group api_path http_method 200 text.

(** The first of the required fields that a mapping lacks, in the order
    [apiPath], [actionGroup], [httpMethod]. *)
Definition first_missing (d : pydict) : option string :=
  if negb (dict_has "apiPath" d) then Some "apiPath"
  else if negb (dict_has "actionGroup" d) then Some "actionGroup"
  else if negb (dict_has "httpMethod" d) then Some "httpMethod"
  else None.

Definition is_mapping (v : pyval) : bool :=
  match v with PDict _ => true | _ => false end.

(** A parameter entry whose [name] is exactly ["SalesOrderID"]. *)
Definition is_sales_order_entry (p : pyval) : bool :=
  match p with
  | PDict e =>
      match dict_get "name" e with
      | Some n => eq_str n "SalesOrderID"
      | None => false
      end
  | _ => false
  end.

(** The [value] of a parameter entry, [None] when it has none. *)
Definition entry_value (p : pyval) : pyval :=
  match p with
  | PDict e =>
      match dict_get "value" e with
      | Some v => v
      | None => PNone
      end
  | _ => PNone
  end.

(** An event with the three required fields and the supported path. *)
Definition routed_event (d : pydict) : Prop :=
  dict_get "apiPath" d = Some (PStr supported_path) /\
  dict_has "actionGroup" d = true /\
  dict_has "httpMethod" d = true.

(** A valid event: the three required fields, the supported path, a
    parameter list of mappings, and a first [SalesOrderID] entry whose value
    is the non-empty string [sales_id]. *)
Definition valid_event (event : pyval) (sales_id : string) : Prop :=
  exists d ps p,
    event = PDict d /\
    routed_event d /\
    dict_get "parameters" d = Some (PList ps) /\
    forallb is_mapping ps = true /\
    find is_sales_order_entry ps = Some p /\
    entry_value p = PStr sales_id /\
    sales_id <> EmptyString.


Definition is_datastore_call (x : effect) : bool :=
  match x with
  | Log _ _ => false
  | OpenTable _ => true
  | Query _ _ _ => true
  end.

(** The record line 117 hands to the logger. *)
Definition invalid_path_record (api_path : pyval) : effect :=
  Log WARNING ("Invalid API path requested: " ++ str api_path).

(** A warning of the routing step, recognised by its text. *)
Definition is_routing_warning (x : effect) : bool :=
  match x with
  | Log WARNING msg => prefix "Invalid API path requested: " msg
  | _ => false
  end.

Definition is_query (x : effect) : bool :=
  match x with
  | Query _ _ _ => true
  | _ => false
  end.

(** [True] for a [ValueError], which [query_logistic_db] lets through. *)
Definition is_value_error (e : exn) : bool :=
  match e with ValueError _ => true | _ => false end.

(** The message [query_logistic_db] puts into the [LogisticsQueryError] it
    raises for a failure [e] of the query call, lines 60-70. *)
Definition surfaced_message (e : exn) : string :=
  match e with
  | ClientError _ error_message _ => "Database query error: " ++ error_message
  | _ => "Failed to query logistics data: " ++ exn_str e
  end.

(** The storage layer's own text inside a failure. *)
Definition internal_text (e : exn) : string :=
  match e with
  | ClientError _ error_message _ => error_message
  | _ => exn_str e
  end.

(** What reaches the caller of [query_logistic_db] when the query call
    fails with [e]: a [ValueError] as it is, anything else wrapped. *)
Definition surfaced (e : exn) : exn :=
  if is_value_error e then e else LogisticsQueryError (surfaced_message e).

(** The record an [except] clause of [query_logistic_db] logs for [e]. *)
Definition query_failure_record (e : exn) : effect :=
  match e with
  | ClientError error_code error_message _ =>
      Log ERROR ("DynamoDB query error: " ++ error_code ++ " - " ++ error_message)
  | ValueError m => Log ERROR ("Input validation error: " ++ m)
  | _ => Log ERROR ("Unexpected error in query_logistic_db: " ++ exn_str e)
  end.

(** The effects of [query_logistic_db] up to and with the query call, when
    the table opens. *)
Definition query_prelude (sales_id : string) : list effect :=
  [OpenTable "logistics";
   Log INFO ("Querying logistics data for order ID: " ++ sales_id);
   Query "logistics" "order_id" (PStr sales_id)].

Definition no_data_record (sales_id : string) : effect :=
  Log WARNING ("No logistics data found for order ID: " ++ sales_id).

Definition malformed_response : string := "Invalid response format from database".

(** The statement that a run answers 500 without showing [internal]. *)
Definition hides_internal_text (db : dynamodb) (event context : pyval)
    (internal : string) : Prop :=
  exists t envelope body,
    lambda_handler db event context = (t, inr envelope) /\
    Envelope.status_code envelope = Some 500%Z /\
    Envelope.body envelope = Some body /\
    ~ Text.occurs internal body.

(** *** Further vocabulary: opening the table, input checks, log records *)

(** The message [setup_dynamodb_table] puts into the [LogisticsQueryError]
    it raises for a failure [e], lines 24-31. *)
Definition init_message (e : exn) : string :=
  match e with
  | ClientError _ error_message _ => "Database initialization error: " ++ error_message
  | _ => "Failed to initialize database connection"
  end.

(** The record an [except] clause of [setup_dynamodb_table] logs for [e]. *)
Definition init_failure_record (e : exn) : effect :=
  match e with
  | ClientError error_code error_message _ =>
      Log ERROR ("Failed to initialize DynamoDB table: "
                 ++ error_code ++ " - " ++ error_message)
  | _ => Log ERROR ("Unexpected error initializing DynamoDB: " ++ exn_str e)
  end.

Definition invalid_sales_id : string := "Invalid sales ID provided".
Definition missing_parameter : string := "SalesOrderID parameter is missing or invalid".
Definition internal_error : string := "Internal server error".

(** The check of line 39: [not sales_id or not isinstance(sales_id, str)]. *)
Definition rejected_sales_id (v : pyval) : bool :=
  negb (truthy v) || negb (isinstance_str v).

Definition is_error_record (x : effect) : bool :=
  match x with
  | Log ERROR _ => true
  | _ => false
  end.

(** The datastore calls of a trace, in order. *)
Definition calls (t : list effect) : list effect := filter is_datastore_call t.

(** The only sequences of datastore calls a run makes: none, the opening of
    the [logistics] table alone, or that opening followed by one query on
    [order_id] for a non-empty string. *)
Definition call_discipline (cs : list effect) : Prop :=
  cs = [] \/
  cs = [OpenTable "logistics"] \/
  exists s, s <> EmptyString /\
    cs = [OpenTable "logistics"; Query "logistics" "order_id" (PStr s)].

(** [record] is what the [except] clauses of [lambda_handler] log for an
    answer with [message] and [status]: the first two clauses log the
    message they return, the last one logs the exception text and returns
    the generic message. *)
Definition answer_record (message : string) (status : Z) (record : effect) : Prop :=
  (status = 400%Z /\ record = Log ERROR ("Validation error: " ++ message)) \/
  (status = 500%Z /\ record = Log ERROR ("Logistics query error: " ++ message)) \/
  (status = 500%Z /\ message = internal_error /\
   exists text, record = Log ERROR ("Unexpected error: " ++ text)).

(** Values [for x in v] can run through. *)
Definition is_iterable (v : pyval) : bool :=
  match v with
  | PList _ | PDict _ | PStr _ => true
  | _ => false
  end.

Definition is_list (v : pyval) : bool :=
  match v with PList _ => true | _ => false end.

(** The message and the status the [except] clauses of [lambda_handler]
    pass to [create_error_response] for the exception they caught, lines
    135-143. *)
Definition answer_of (e : exn) : string * Z :=
  match e with
  | ValueError m => (m, 400%Z)
  | LogisticsQueryError m => (m, 500%Z)
  | _ => (internal_error, 500%Z)
  end.

(** The record they log for it. *)
Definition answer_log (e : exn) : effect :=
  match e with
  | ValueError _ => Log ERROR ("Validation error: " ++ exn_str e)
  | LogisticsQueryError _ => Log ERROR ("Logistics query error: " ++ exn_str e)
  | _ => Log ERROR ("Unexpected error: " ++ exn_str e)
  end.

(** Values on which [str] cannot raise: everything but the containers (a
    deep nesting hits the recursion limit) and the integers of more than
    4300 digits (the limit on integer string conversion).  Every string is
    such a value. *)
Definition formats_plainly (v : pyval) : bool :=
  match v with
  | PList _ | PDict _ => false
  | PInt n => (Z.abs n <? 10 ^ 4300)%Z
  | _ => true
  end.

(** The [try] block of [lambda_handler], lines 96-133. *)
Definition attempt (db : dynamodb) (event : pyval) : M pyval :=
  validate_event event ;;
  logged_path <- lift (getitem event "apiPath") ;;
  emit (processing_record logged_path) ;;
  api_path <- lift (getitem event "apiPath") ;;
  body <-
    (if eq_str api_path supported_path
     then extract_and_query db event
     else
       warned_path <- lift (getitem event "apiPath") ;;
       log WARNING ("Invalid API path requested: " ++ str warned_path) ;;
       raised_path <- lift (getitem event "apiPath") ;;
       raise (ValueError ("Invalid API path: " ++ str raised_path))) ;;
  respond event body.

(** The trace of a run that answers 200 for the sales order [s], [items]
    being what the response holds under [Items]. *)
Definition success_trace (s : string) (items : pyval) : list effect :=
  (processing_record (PStr supported_path)
   :: query_prelude s ++ (if truthy items then [] else [no_data_record s]))%list.

End Spec.

(** *** Concrete events and datastores *)

Module Examples.
Import Py Eff PyOps Logistics.

Definition q : string := Text.chr Text.dquote.

(** The event of the end-to-end example. *)
Definition so123_fields : pydict :=
  [("apiPath", PStr "/salesorder/{SalesOrderID}");
   ("actionGroup", PStr "ag1");
   ("httpMethod", PStr "GET");
   ("parameters", PList [PDict [("name", PStr "SalesOrderID"); ("value", PStr "SO123")]])].

Definition so123_event : pyval := PDict so123_fields.

Definition so123_result : pydict :=
  [("Items", PList [PDict [("order_id", PStr "SO123"); ("status", PStr "shipped")]])].

(** [json.dumps] of [so123_result], written out. *)
Definition so123_text : string :=
  "{" ++ q ++ "Items" ++ q ++ ": [{" ++ q ++ "order_id" ++ q ++ ": " ++ q ++ "SO123" ++ q
      ++ ", " ++ q ++ "status" ++ q ++ ": " ++ q ++ "shipped" ++ q ++ "}]}".

(** A datastore whose table opens and whose every query gives [outcome]. *)
Definition db_answering (outcome : exn + pydict) : dynamodb :=
  {| table_status := fun _ => None;
     table_query := fun _ _ _ => outcome |}.

Definition not_found : exn :=
  ClientError "ResourceNotFoundException" "Requested resource not found"
    "An error occurred (ResourceNotFoundException) when calling the Query operation: Requested resource not found".

(** The example event with one field taken out. *)
Definition fields_without (field : string) : pydict :=
  filter (fun kv => negb (fst kv =? field)) so123_fields.

(** The example event with another [apiPath]. *)
Definition fields_with_path (api_path : pyval) : pydict :=
  ("apiPath", api_path) :: fields_without "apiPath".

(** The example event with another parameter list. *)
Definition fields_with_parameters (parameters : pyval) : pydict :=
  (fields_without "parameters" ++ [("parameters", parameters)])%list.

(** Three parameter entries: a name in another case, then two entries named
    [SalesOrderID]. *)
Definition two_matches : list pyval :=
  [PDict [("name", PStr "salesorderid"); ("value", PStr "SO0")];
   PDict [("name", PStr "SalesOrderID"); ("value", PStr "SO1")];
   PDict [("name", PStr "SalesOrderID"); ("value", PStr "SO2")]].

(** A query response without the [Items] key. *)
Definition itemless_result : pydict := [("Count", PInt 0)].


(** A datastore whose table cannot be opened, failing with [e]. *)
Definition db_closed (e : exn) : dynamodb :=
  {| table_status := fun _ => Some e;
     table_query := fun _ _ _ => inr so123_result |}.


(** A parameter list with a stray string before the entry. *)
Definition stray_entry : list pyval :=
  [PDict [("name", PStr "Other"); ("value", PStr "x")];
   PStr "SalesOrderID";
   PDict [("name", PStr "SalesOrderID"); ("value", PStr "SO123")]].

(** A parameter list with the entry first and stray values after it. *)
Definition stray_tail : list pyval :=
  [PDict [("name", PStr "SalesOrderID"); ("value", PStr "SO123")];
   PInt 7;
   PNone].

(** A parameter list whose entry holds a number. *)
Definition numeric_id : list pyval :=
  [PDict [("name", PStr "SalesOrderID"); ("value", PInt 123)]].

End Examples.

(* ===================================================================== *)
(** ** Basic facts *)
(* ===================================================================== *)

Section MonadFacts.
Import Eff.

Lemma bind_inr {A B : Type} (m : M A) (f : A -> M B) (t : list effect) (b : B) :
  bind m f = (t, inr b) ->
  exists t1 a t2, m = (t1, inr a) /\ f a = (t2, inr b) /\ t = (t1 ++ t2)%list.
Proof.
  unfold bind. destruct m as [t1 [e | a]]; [discriminate |].
  destruct (f a) as [t2 r] eqn:Hf. intros H. inversion H; subst.
  exists t1, a, t2. auto.
Qed.

Lemma bind_ret {A B : Type} (a : A) (f : A -> M B) : bind (ret a) f = f a.
Proof. unfold bind, ret. destruct (f a); reflexivity. Qed.

Lemma bind_lift_inr {A B : Type} (a : A) (f : A -> M B) : bind (lift (inr a)) f = f a.
Proof. apply bind_ret. Qed.

Lemma bind_lift_inl {A B : Type} (e : exn) (f : A -> M B) :
  bind (lift (inl e)) f = raise e.
Proof. reflexivity. Qed.

Lemma bind_raise {A B : Type} (e : exn) (f : A -> M B) : bind (raise e) f = raise e.
Proof. reflexivity. Qed.

Lemma bind_emit {B : Type} (x : effect) (f : unit -> M B) :
  bind (emit x) f = (x :: fst (f tt), snd (f tt)).
Proof. unfold bind, emit. destruct (f tt); reflexivity. Qed.

Lemma bind_assoc {A B C : Type} (m : M A) (f : A -> M B) (g : B -> M C) :
  bind (bind m f) g = bind m (fun a => bind (f a) g).
Proof.
  unfold bind. destruct m as [t [e | a]]; [reflexivity |].
  destruct (f a) as [t1 [e | b]]; [reflexivity |].
  destruct (g b) as [t2 r]. now rewrite app_assoc.
Qed.

Lemma lift_inr {A : Type} (r : exn + A) (t : list effect) (a : A) :
  lift r = (t, inr a) -> r = inr a /\ t = [].
Proof. unfold lift. intros H. inversion H. auto. Qed.

Lemma try_except_value {A : Type} (t : list effect) (a : A) (h : exn -> M A) :
  try_except (t, inr a) h = (t, inr a).
Proof. reflexivity. Qed.

Lemma try_except_raise {A : Type} (t : list effect) (e : exn) (h : exn -> M A) :
  try_except (t, inl e) h = ((t ++ fst (h e))%list, snd (h e)).
Proof. unfold try_except. destruct (h e); reflexivity. Qed.

End MonadFacts.

Section TextFacts.

Lemma append_assoc (a b c : string) : (a ++ b) ++ c = a ++ b ++ c.
Proof. induction a as [| x a IH]; simpl; [reflexivity | now rewrite IH]. Qed.

Lemma append_empty_r (a : string) : a ++ EmptyString = a.
Proof. induction a as [| x a IH]; simpl; [reflexivity | now rewrite IH]. Qed.

Lemma occurs_refl (x : string) : Text.occurs x x.
Proof. exists EmptyString, EmptyString. simpl. now rewrite append_empty_r. Qed.

Lemma occurs_append_l (x s pre : string) : Text.occurs x s -> Text.occurs x (pre ++ s).
Proof.
  intros (p & q & ->). exists (pre ++ p), q. now rewrite append_assoc.
Qed.

Lemma occurs_append_r (x s post : string) : Text.occurs x s -> Text.occurs x (s ++ post).
Proof.
  intros (p & q & ->). exists p, (q ++ post). now rewrite !append_assoc.
Qed.

Lemma occurs_wrap (x s pre post : string) :
  Text.occurs x s -> Text.occurs x (pre ++ s ++ post).
Proof. intros H. now apply occurs_append_l, occurs_append_r. Qed.

Lemma flat_map_string_append (f : ascii -> string) (a b : string) :
  Text.flat_map_string f (a ++ b) = Text.flat_map_string f a ++ Text.flat_map_string f b.
Proof.
  induction a as [| x a IH]; simpl; [reflexivity |].
  rewrite IH. now rewrite append_assoc.
Qed.

Lemma escape_append (a b : string) : Json.escape (a ++ b) = Json.escape a ++ Json.escape b.
Proof. apply flat_map_string_append. Qed.

End TextFacts.

(* ===================================================================== *)
(** ** Facts about the handler *)
(* ===================================================================== *)

Section HandlerFacts.
Import Py Eff PyOps Logistics Spec.
Local Open Scope eff_scope.

Variable db : dynamodb.

Lemma dumps_error (message : string) :
  Json.dumps (PDict [("error", PStr message)]) = inr (Envelope.error_text message).
Proof. reflexivity. Qed.

Lemma create_error_response_eq (message : string) (status : Z) :
  create_error_response message status = ret (Envelope.error message status).
Proof. reflexivity. Qed.

(** [lambda_handler] with its blocks named. *)
Lemma lambda_handler_blocks (event context : pyval) :
  lambda_handler db event context =
  try_except
    (validate_event event ;;
     logged_path <- lift (getitem event "apiPath") ;;
     emit (processing_record logged_path) ;;
     api_path <- lift (getitem event "apiPath") ;;
     body <-
       (if eq_str api_path supported_path
        then extract_and_query db event
        else
          warned_path <- lift (getitem event "apiPath") ;;
          log WARNING ("Invalid API path requested: " ++ str warned_path) ;;
          raised_path <- lift (getitem event "apiPath") ;;
          raise (ValueError ("Invalid API path: " ++ str raised_path))) ;;
     respond event body)
    except_clauses.
Proof. reflexivity. Qed.

Lemma except_value_error (t : list effect) (m : string) :
  try_except (t, inl (ValueError m)) except_clauses
  = ((t ++ [Log ERROR ("Validation error: " ++ m)])%list, inr (Envelope.error m 400)).
Proof. reflexivity. Qed.

Lemma except_query_error (t : list effect) (m : string) :
  try_except (t, inl (LogisticsQueryError m)) except_clauses
  = ((t ++ [Log ERROR ("Logistics query error: " ++ m)])%list, inr (Envelope.error m 500)).
Proof. reflexivity. Qed.

Lemma except_clauses_error (e : exn) :
  exists t envelope, except_clauses e = (t, inr envelope) /\ error_outcome envelope.
Proof.
  destruct e; cbv beta iota delta [except_clauses];
    rewrite create_error_response_eq;
    cbv beta iota zeta delta [bind log emit ret];
    eexists; eexists; (split; [reflexivity |]);
    eexists; eexists; (split; [| reflexivity]); auto.
Qed.

Ltac invert_binds :=
  repeat match goal with
  | H : bind _ _ = (_, inr _) |- _ =>
      apply bind_inr in H;
      let Hm := fresh "Hm" in
      destruct H as (? & ? & ? & Hm & H & ?);
      cbv beta in H;
      try (apply lift_inr in Hm; destruct Hm as [Hm ?])
  end.

Lemma respond_success (event : pyval) (body : pydict) (t : list effect) (envelope : pyval) :
  respond event body = (t, inr envelope) -> success_outcome event envelope.
Proof.
  unfold respond. intros H. invert_binds.
  unfold ret in H. inversion H; subst.
  unfold success_outcome. eauto 10.
Qed.

(** Every run ends in one of the two envelopes. *)
Lemma lambda_handler_cases (event context : pyval) :
  exists t envelope,
    lambda_handler db event context = (t, inr envelope) /\
    (success_outcome event envelope \/ error_outcome envelope).
Proof.
  rewrite lambda_handler_blocks.
  match goal with |- context [try_except ?m _] => destruct m as [t [e | envelope]] eqn:Hbody end.
  - rewrite try_except_raise.
    destruct (except_clauses_error e) as (t' & envelope & -> & He).
    exists (t ++ t')%list, envelope. auto.
  - exists t, envelope. split; [reflexivity |]. left.
    invert_binds. eapply respond_success; eassumption.
Qed.

Lemma well_formed_make (ag ap hm : pyval) (status : Z) (text : string) :
  (status = 200 \/ status = 400 \/ status = 500)%Z ->
  Envelope.well_formed (Envelope.make ag ap hm status text).
Proof.
  intros Hs. unfold Envelope.well_formed, Envelope.make.
  eexists; exists status, text. split; [reflexivity |].
  repeat split; auto.
Qed.

(** [validate_event] on a mapping stops at the first missing field. *)
Lemma validate_event_mapping (d : pydict) :
  validate_event (PDict d) =
  match first_missing d with
  | Some field => raise (ValueError ("Missing required field: " ++ field))
  | None => ret tt
  end.
Proof.
  unfold validate_event, first_missing, required_fields, check_fields, contains.
  destruct (dict_has "apiPath" d); [| reflexivity].
  destruct (dict_has "actionGroup" d); [| reflexivity].
  destruct (dict_has "httpMethod" d); reflexivity.
Qed.

Lemma getitem_mapping (d : pydict) (key : string) (v : pyval) :
  dict_get key d = Some v -> getitem (PDict d) key = inr v.
Proof. unfold getitem. now intros ->. Qed.


(** The run on a mapping that passes validation, up to the routing test. *)
Lemma lambda_handler_validated (d : pydict) (context api_path : pyval) :
  first_missing d = None ->
  dict_get "apiPath" d = Some api_path ->
  lambda_handler db (PDict d) context =
  try_except
    (emit (processing_record api_path) ;;
     body <-
       (if eq_str api_path supported_path
        then extract_and_query db (PDict d)
        else
          log WARNING ("Invalid API path requested: " ++ str api_path) ;;
          raise (ValueError ("Invalid API path: " ++ str api_path))) ;;
     respond (PDict d) body)
    except_clauses.
Proof.
  intros Hv Ha. rewrite lambda_handler_blocks, validate_event_mapping, Hv.
  rewrite (getitem_mapping _ _ _ Ha). now rewrite !bind_ret, !bind_lift_inr.
Qed.

End HandlerFacts.

(* ===================================================================== *)
(** ** Validation and routing *)
(* ===================================================================== *)

Section ValidationFacts.
Import Py Eff PyOps Logistics Spec.

Lemma first_missing_absent (d : pydict) :
  dict_has "apiPath" d && dict_has "actionGroup" d && dict_has "httpMethod" d = false ->
  exists field, first_missing d = Some field.
Proof.
  unfold first_missing.
  destruct (dict_has "apiPath" d); simpl; [| eauto].
  destruct (dict_has "actionGroup" d); simpl; [| eauto].
  destruct (dict_has "httpMethod" d); simpl; [discriminate | eauto].
Qed.

Lemma first_missing_cases (d : pydict) (field : string) :
  first_missing d = Some field ->
  dict_has field d = false /\
  (field = "apiPath" \/
   field = "actionGroup" /\ dict_has "apiPath" d = true \/
   field = "httpMethod" /\ dict_has "apiPath" d = true /\ dict_has "actionGroup" d = true).
Proof.
  unfold first_missing.
  destruct (dict_has "apiPath" d) eqn:H1; simpl.
  2: { intros H; inversion H; subst; auto. }
  destruct (dict_has "actionGroup" d) eqn:H2; simpl.
  2: { intros H; inversion H; subst; auto. }
  destruct (dict_has "httpMethod" d) eqn:H3; simpl; [discriminate |].
  intros H; inversion H; subst; auto 6.
Qed.

Lemma routed_event_validated (d : pydict) : routed_event d -> first_missing d = None.
Proof.
  intros (Ha & Hg & Hm). unfold first_missing, dict_has in *.
  rewrite Ha. simpl.
  destruct (dict_get "actionGroup" d); [| discriminate].
  destruct (dict_get "httpMethod" d); [reflexivity | discriminate].
Qed.

Lemma eq_str_true (v : pyval) (s : string) : eq_str v s = true <-> v = PStr s.
Proof.
  destruct v; simpl; try (split; [discriminate | intros H; discriminate H]).
  rewrite String.eqb_eq. split; [now intros -> | intros H; now inversion H].
Qed.

Lemma eq_str_false (v : pyval) (s : string) : v <> PStr s -> eq_str v s = false.
Proof.
  intros H. destruct (eq_str v s) eqn:E; [| reflexivity].
  apply eq_str_true in E. contradiction.
Qed.

End ValidationFacts.

Section Validation.
Import Py Eff PyOps Logistics Spec.

(** C4.  An event (a mapping) that lacks at least one of [apiPath],
    [actionGroup], [httpMethod] is answered with status 400 and the message
    [Missing required field: f], where [f] is the first missing field in
    that order and the only one named; the body text contains [f]. *)
Theorem missing_field_rejected (db : dynamodb) (d : pydict) (context : pyval) :
  dict_has "apiPath" d && dict_has "actionGroup" d && dict_has "httpMethod" d = false ->
  exists field t envelope body,
    first_missing d = Some field /\
    lambda_handler db (PDict d) context = (t, inr envelope) /\
    envelope = Envelope.error ("Missing required field: " ++ field) 400 /\
    Envelope.status_code envelope = Some 400%Z /\
    Envelope.body envelope = Some body /\
    Text.occurs field body.
Proof.
  intros Habsent.
  destruct (first_missing_absent d Habsent) as (field & Hf).
  exists field. rewrite lambda_handler_blocks, validate_event_mapping, Hf.
  rewrite bind_raise. unfold raise. rewrite except_value_error.
  eexists; eexists; eexists. repeat (split; [reflexivity |]).
  destruct (first_missing_cases d field Hf) as (_ & [-> | [(-> & _) | (-> & _)]]);
    exists ("{" ++ Examples.q ++ "error" ++ Examples.q ++ ": " ++ Examples.q
            ++ "Missing required field: "), (Examples.q ++ "}");
    reflexivity.
Qed.

Lemma missing_field_rejected_witness :
  let d := Examples.fields_without "actionGroup" in
  dict_has "apiPath" d && dict_has "actionGroup" d && dict_has "httpMethod" d = false /\
  exists field t envelope body,
    first_missing d = Some field /\
    lambda_handler (Examples.db_answering (inr Examples.so123_result)) (PDict d) PNone
      = (t, inr envelope) /\
    envelope = Envelope.error ("Missing required field: " ++ field) 400 /\
    Envelope.status_code envelope = Some 400%Z /\
    Envelope.body envelope = Some body /\
    Text.occurs field body.
Proof.
  intros d. split; [reflexivity |].
  apply (missing_field_rejected _ d PNone). reflexivity.
Defined.

(** C9.  An event with the supported [apiPath], [actionGroup] and
    [httpMethod] but no [parameters] field passes [validate_event]; its
    parameters are taken to be the empty list, and the answer is status 400
    with the message [SalesOrderID parameter is missing or invalid]. *)
Theorem absent_parameters_rejected (db : dynamodb) (d : pydict) (context : pyval) :
  routed_event d ->
  dict_get "parameters" d = None ->
  validate_event (PDict d) = ret tt /\
  method_get (PDict d) "parameters" (PList []) = inr (PList []) /\
  exists t,
    lambda_handler db (PDict d) context
    = (t, inr (Envelope.error "SalesOrderID parameter is missing or invalid" 400)).
Proof.
  intros Hr Hp. pose proof (routed_event_validated d Hr) as Hv.
  split; [now rewrite validate_event_mapping, Hv |].
  split; [unfold method_get; now rewrite Hp |].
  destruct Hr as (Ha & _).
  rewrite (lambda_handler_validated db d context _ Hv Ha).
  unfold extract_and_query, method_get. rewrite Hp.
  cbn [eq_str supported_path]. rewrite String.eqb_refl.
  eexists. reflexivity.
Qed.

Lemma absent_parameters_rejected_witness :
  let d := Examples.fields_without "parameters" in
  routed_event d /\
  dict_get "parameters" d = None /\
  validate_event (PDict d) = ret tt /\
  method_get (PDict d) "parameters" (PList []) = inr (PList []) /\
  exists t,
    lambda_handler (Examples.db_answering (inr Examples.so123_result)) (PDict d) PNone
    = (t, inr (Envelope.error "SalesOrderID parameter is missing or invalid" 400)).
Proof.
  intros d.
  assert (Hr : routed_event d) by (repeat split; reflexivity).
  assert (Hp : dict_get "parameters" d = None) by reflexivity.
  split; [exact Hr |]. split; [exact Hp |].
  exact (absent_parameters_rejected _ d PNone Hr Hp).
Defined.

End Validation.

(* ===================================================================== *)
(** ** Parameter extraction and the datastore query *)
(* ===================================================================== *)

Section QueryFacts.
Import Py Eff PyOps Logistics Spec.
Local Open Scope eff_scope.

Variable db : dynamodb.

(** On a list of mappings the loop finds the first [SalesOrderID] entry. *)
Lemma scan_parameters_mappings (ps : list pyval) :
  forallb is_mapping ps = true ->
  scan_parameters ps =
  ret (match find is_sales_order_entry ps with
       | Some p => entry_value p
       | None => PNone
       end).
Proof.
  induction ps as [| p ps IH]; [reflexivity |].
  destruct p as [| | | | | | e |]; try discriminate.
  intros Hall. cbn [forallb is_mapping andb] in Hall. specialize (IH Hall).
  cbn [scan_parameters find is_sales_order_entry method_get].
  destruct (dict_get "name" e) as [n |] eqn:Hn.
  - rewrite bind_lift_inr. destruct (eq_str n "SalesOrderID").
    + cbn [entry_value]. destruct (dict_get "value" e); reflexivity.
    + exact IH.
  - rewrite bind_lift_inr. exact IH.
Qed.

Lemma extract_and_query_mappings (d : pydict) (ps : list pyval) :
  dict_get "parameters" d = Some (PList ps) ->
  forallb is_mapping ps = true ->
  extract_and_query db (PDict d) =
  let sales_id := match find is_sales_order_entry ps with
                  | Some p => entry_value p
                  | None => PNone
                  end in
  if negb (truthy sales_id)
  then raise (ValueError "SalesOrderID parameter is missing or invalid")
  else query_logistic_db db sales_id.
Proof.
  intros Hp Hall. unfold extract_and_query, method_get. rewrite Hp.
  rewrite bind_lift_inr. cbn [iter]. rewrite bind_lift_inr.
  rewrite (scan_parameters_mappings ps Hall). now rewrite bind_ret.
Qed.

Lemma truthy_nonempty (s : string) : s <> EmptyString -> truthy (PStr s) = true.
Proof. intros H. cbn [truthy]. apply String.eqb_neq in H. now rewrite H. Qed.

(** A valid event goes straight to the query with its sales order id. *)
Lemma lambda_handler_valid (event context : pyval) (sales_id : string) :
  valid_event event sales_id ->
  lambda_handler db event context =
  try_except
    (emit (processing_record (PStr supported_path)) ;;
     body <- query_logistic_db db (PStr sales_id) ;;
     respond event body)
    except_clauses.
Proof.
  intros (d & ps & p & -> & Hr & Hp & Hall & Hfind & Hval & Hne).
  pose proof (routed_event_validated d Hr) as Hv. destruct Hr as (Ha & _).
  rewrite (lambda_handler_validated db d context _ Hv Ha).
  cbn [eq_str supported_path]. rewrite String.eqb_refl.
  rewrite (extract_and_query_mappings d ps Hp Hall), Hfind, Hval.
  cbv zeta. now rewrite (truthy_nonempty _ Hne).
Qed.

(** [query_logistic_db] on a non-empty string, when the table opens. *)
Lemma query_logistic_db_open (sales_id : string) :
  sales_id <> EmptyString ->
  table_status db "logistics" = None ->
  query_logistic_db db (PStr sales_id) =
  match table_query db "logistics" "order_id" (PStr sales_id) with
  | inl e => ((query_prelude sales_id ++ [query_failure_record e])%list, inl (surfaced e))
  | inr response =>
      match dict_get "Items" response with
      | None =>
          ((query_prelude sales_id
            ++ [query_failure_record (LogisticsQueryError malformed_response)])%list,
           inl (surfaced (LogisticsQueryError malformed_response)))
      | Some items =>
          ((query_prelude sales_id
            ++ (if truthy items then [] else [no_data_record sales_id]))%list,
           inr response)
      end
  end.
Proof.
  intros Hne Hopen. unfold query_logistic_db, setup_dynamodb_table.
  rewrite (truthy_nonempty _ Hne), Hopen. cbn [negb isinstance_str orb].
  cbv beta iota zeta delta [try_except bind emit ret lift log raise app].
  destruct (table_query db "logistics" "order_id" (PStr sales_id)) as [e | response].
  - destruct e; reflexivity.
  - unfold dict_has, getitem.
    destruct (dict_get "Items" response) as [items |]; [| reflexivity].
    destruct (truthy items); reflexivity.
Qed.

End QueryFacts.

Section JsonFacts.
Import Py Eff PyOps.







End JsonFacts.

Section RunFacts.
Import Py Eff PyOps Logistics Spec.
Local Open Scope eff_scope.

Variable db : dynamodb.

Lemma respond_trace (event : pyval) (body : pydict) : fst (respond event body) = [].
Proof.
  unfold respond.
  destruct (Json.dumps (PDict body)); [reflexivity |].
  destruct (getitem event "actionGroup"); [reflexivity |].
  destruct (getitem event "apiPath"); [reflexivity |].
  destruct (getitem event "httpMethod"); reflexivity.
Qed.


Lemma except_clauses_no_call (e : exn) :
  filter is_datastore_call (fst (except_clauses e)) = [].
Proof. destruct e; reflexivity. Qed.

Lemma is_query_datastore_call (x : effect) : is_query x = true -> is_datastore_call x = true.
Proof. destruct x; simpl; congruence. Qed.

Lemma no_call_no_query (t : list effect) :
  filter is_datastore_call t = [] -> filter is_query t = [].
Proof.
  induction t as [| x t IH]; [reflexivity |]. cbn [filter].
  destruct (is_datastore_call x) eqn:Hx; [discriminate |].
  destruct (is_query x) eqn:Hq; [| exact IH].
  apply is_query_datastore_call in Hq. congruence.
Qed.

(** The datastore calls of a run that goes into the query are those of the
    query. *)
Lemma guarded_query_calls (record : effect) (query : M pydict) (event : pyval)
    (keep : effect -> bool) :
  keep record = false ->
  (forall e, filter keep (fst (except_clauses e)) = []) ->
  filter keep
    (fst (try_except (emit record ;; body <- query ;; respond event body) except_clauses))
  = filter keep (fst query).
Proof.
  intros Hrec Hexc. destruct query as [tq [e | body]].
  - cbv beta iota zeta delta [bind emit]. rewrite try_except_raise.
    cbn [fst app filter]. rewrite Hrec, filter_app, Hexc. now rewrite app_nil_r.
  - cbv beta iota zeta delta [bind emit].
    pose proof (respond_trace event body) as Ht.
    destruct (respond event body) as [tr [e | v]]; cbn [fst] in Ht; subst tr.
    + rewrite try_except_raise. cbn [fst app filter].
      rewrite Hrec, !filter_app, Hexc. cbn [filter]. now rewrite !app_nil_r.
    + rewrite try_except_value. cbn [fst app filter].
      rewrite Hrec, filter_app. cbn [filter]. now rewrite app_nil_r.
Qed.

Lemma query_prelude_queries (sales_id : string) (logs : list effect) :
  filter is_query logs = [] ->
  filter is_query (query_prelude sales_id ++ logs)%list
  = [Query "logistics" "order_id" (PStr sales_id)].
Proof. intros H. rewrite filter_app, H. reflexivity. Qed.

(** With the table open, [query_logistic_db] makes exactly one query, for the
    string it was given. *)
Lemma query_logistic_db_queries (sales_id : string) :
  sales_id <> EmptyString ->
  table_status db "logistics" = None ->
  filter is_query (fst (query_logistic_db db (PStr sales_id)))
  = [Query "logistics" "order_id" (PStr sales_id)].
Proof.
  intros Hne Hopen. rewrite (query_logistic_db_open db sales_id Hne Hopen).
  destruct (table_query db "logistics" "order_id" (PStr sales_id)) as [e | response].
  - cbn [fst]. apply query_prelude_queries. destruct e; reflexivity.
  - destruct (dict_get "Items" response) as [items |]; cbn [fst].
    + apply query_prelude_queries. destruct (truthy items); reflexivity.
    + apply query_prelude_queries. reflexivity.
Qed.


Lemma scan_parameters_trace (ps : list pyval) : fst (scan_parameters ps) = [].
Proof.
  induction ps as [| p ps IH]; [reflexivity |]. cbn [scan_parameters].
  destruct (method_get p "name" PNone) as [e | name]; [reflexivity |].
  rewrite bind_lift_inr. destruct (eq_str name "SalesOrderID"); [| exact IH].
  destruct (method_get p "value" PNone); reflexivity.
Qed.

(** Nothing [query_logistic_db] logs reads like the routing warning. *)
Lemma query_logistic_db_no_routing_warning (sales_id : pyval) :
  filter is_routing_warning (fst (query_logistic_db db sales_id)) = [].
Proof.
  unfold query_logistic_db, setup_dynamodb_table.
  destruct (negb (truthy sales_id) || negb (isinstance_str sales_id)); [reflexivity |].
  destruct (table_status db "logistics") as [e |]; [destruct e; reflexivity |].
  cbv beta iota zeta delta [try_except bind emit ret lift log raise app].
  destruct (table_query db "logistics" "order_id" sales_id) as [e | response];
    [destruct e; reflexivity |].
  destruct (dict_has "Items" response); [| reflexivity]. cbn [negb].
  destruct (getitem (PDict response) "Items") as [e | items]; [destruct e; reflexivity |].
  destruct (truthy items); reflexivity.
Qed.

Lemma extract_and_query_no_routing_warning (event : pyval) :
  filter is_routing_warning (fst (extract_and_query db event)) = [].
Proof.
  unfold extract_and_query.
  destruct (method_get event "parameters" (PList [])) as [e | parameters]; [reflexivity |].
  rewrite bind_lift_inr.
  destruct (iter parameters) as [e | entries]; [reflexivity |].
  rewrite bind_lift_inr.
  pose proof (scan_parameters_trace entries) as Ht.
  destruct (scan_parameters entries) as [ts [e | sales_id]]; cbn [fst] in Ht; subst ts;
    [reflexivity |].
  rewrite (bind_ret sales_id). destruct (negb (truthy sales_id)); [reflexivity |].
  apply query_logistic_db_no_routing_warning.
Qed.

Lemma except_clauses_no_routing_warning (e : exn) :
  filter is_routing_warning (fst (except_clauses e)) = [].
Proof. destruct e; reflexivity. Qed.

End RunFacts.

(* ===================================================================== *)
(** ** Properties of parameter extraction *)
(* ===================================================================== *)

Section Parameters.
Import Py Eff PyOps Logistics Spec.
Local Open Scope eff_scope.

(** C6.  On an event with the required fields and the supported path whose
    [parameters] is a list of mappings: when no entry has the name
    [SalesOrderID] (compared exactly), or the first such entry has an empty
    or absent value, the answer is status 400 and the datastore is not
    touched; otherwise the value of the first such entry is the argument of
    [query_logistic_db], and when it is a string and the table opens it is
    the key of the one query the run makes. *)
Theorem sales_order_id_first_match (db : dynamodb) (d : pydict) (context : pyval)
    (ps : list pyval) :
  routed_event d ->
  dict_get "parameters" d = Some (PList ps) ->
  forallb is_mapping ps = true ->
  (find is_sales_order_entry ps = None \/
   (exists p, find is_sales_order_entry ps = Some p /\ truthy (entry_value p) = false) ->
   exists t,
     lambda_handler db (PDict d) context
     = (t, inr (Envelope.error "SalesOrderID parameter is missing or invalid" 400)) /\
     filter is_datastore_call t = []) /\
  (forall p,
     find is_sales_order_entry ps = Some p ->
     truthy (entry_value p) = true ->
     lambda_handler db (PDict d) context
     = try_except
         (emit (processing_record (PStr supported_path)) ;;
          body <- query_logistic_db db (entry_value p) ;;
          respond (PDict d) body)
         except_clauses) /\
  (forall p s,
     find is_sales_order_entry ps = Some p ->
     entry_value p = PStr s ->
     s <> EmptyString ->
     table_status db "logistics" = None ->
     filter is_query (trace (lambda_handler db (PDict d) context))
     = [Query "logistics" "order_id" (PStr s)]).
Proof.
  intros Hr Hp Hall.
  pose proof (routed_event_validated d Hr) as Hv. destruct Hr as (Ha & Hr).
  assert (Hrun : forall sales_id,
    match find is_sales_order_entry ps with
    | Some p => entry_value p
    | None => PNone
    end = sales_id ->
    lambda_handler db (PDict d) context
    = try_except
        (emit (processing_record (PStr supported_path)) ;;
         body <- (if negb (truthy sales_id)
                  then raise (ValueError "SalesOrderID parameter is missing or invalid")
                  else query_logistic_db db sales_id) ;;
         respond (PDict d) body)
        except_clauses).
  { intros sales_id <-. rewrite (lambda_handler_validated db d context _ Hv Ha).
    cbn [eq_str supported_path]. rewrite String.eqb_refl.
    now rewrite (extract_and_query_mappings db d ps Hp Hall). }
  split; [| split].
  - intros [Hnone | (p & Hsome & Hfalsy)].
    + rewrite (Hrun PNone) by now rewrite Hnone.
      eexists. split; reflexivity.
    + rewrite (Hrun (entry_value p)) by now rewrite Hsome.
      rewrite Hfalsy. eexists. split; reflexivity.
  - intros p Hsome Htruthy.
    rewrite (Hrun (entry_value p)) by now rewrite Hsome.
    now rewrite Htruthy.
  - intros p s Hsome Hval Hne Hopen.
    rewrite (Hrun (PStr s)) by now rewrite Hsome.
    rewrite (truthy_nonempty s Hne). cbn [negb]. unfold trace.
    rewrite guarded_query_calls.
    + now apply query_logistic_db_queries.
    + reflexivity.
    + intros e. apply no_call_no_query, except_clauses_no_call.
Qed.

Lemma sales_order_id_first_match_witness :
  let d := Examples.fields_with_parameters (PList Examples.two_matches) in
  let db := Examples.db_answering (inr Examples.so123_result) in
  routed_event d /\
  dict_get "parameters" d = Some (PList Examples.two_matches) /\
  forallb is_mapping Examples.two_matches = true /\
  filter is_query (trace (lambda_handler db (PDict d) PNone))
  = [Query "logistics" "order_id" (PStr "SO1")].
Proof.
  intros d db.
  assert (Hr : routed_event d) by (repeat split; reflexivity).
  assert (Hp : dict_get "parameters" d = Some (PList Examples.two_matches)) by reflexivity.
  assert (Hall : forallb is_mapping Examples.two_matches = true) by reflexivity.
  repeat (split; [assumption |]).
  refine (proj2 (proj2 (sales_order_id_first_match db d PNone _ Hr Hp Hall))
            (PDict [("name", PStr "SalesOrderID"); ("value", PStr "SO1")]) "SO1"
            eq_refl eq_refl _ eq_refl).
  discriminate.
Defined.

End Parameters.

(* ===================================================================== *)
(** ** Properties of the datastore outcomes *)
(* ===================================================================== *)

Section Datastore.
Import Py Eff PyOps Logistics Spec.
Local Open Scope eff_scope.

(** C3.  The end-to-end example: for the event with path
    [/salesorder/{SalesOrderID}], action group [ag1], method [GET] and the
    parameter [SalesOrderID = SO123], and a datastore that answers the query
    with the one record [{order_id: SO123, status: shipped}] under [Items],
    [lambda_handler] returns exactly the 200 envelope that echoes the three
    event fields and whose body is the JSON text of that query result. *)
Theorem end_to_end_so123 (db : dynamodb) (context : pyval) :
  table_status db "logistics" = None ->
  table_query db "logistics" "order_id" (PStr "SO123") = inr Examples.so123_result ->
  Json.dumps (PDict Examples.so123_result) = inr Examples.so123_text /\
  lambda_handler db Examples.so123_event context =
  ([Log INFO "Processing request for API path: /salesorder/{SalesOrderID}";
    OpenTable "logistics";
    Log INFO "Querying logistics data for order ID: SO123";
    Query "logistics" "order_id" (PStr "SO123")],
   inr (PDict [
     ("messageVersion", PStr "1.0");
     ("response", PDict [
       ("actionGroup", PStr "ag1");
       ("apiPath", PStr "/salesorder/{SalesOrderID}");
       ("httpMethod", PStr "GET");
       ("httpStatusCode", PInt 200);
       ("responseBody",
        PDict [("application/json", PDict [("body", PStr Examples.so123_text)])])])])).
Proof.
  intros Hopen Hquery. split; [reflexivity |].
  assert (Hvalid : valid_event Examples.so123_event "SO123").
  { exists Examples.so123_fields,
      [PDict [("name", PStr "SalesOrderID"); ("value", PStr "SO123")]],
      (PDict [("name", PStr "SalesOrderID"); ("value", PStr "SO123")]).
    repeat split; try reflexivity. discriminate. }
  rewrite (lambda_handler_valid db _ context _ Hvalid).
  rewrite (query_logistic_db_open db "SO123") by (discriminate || exact Hopen).
  rewrite Hquery. reflexivity.
Qed.

Lemma end_to_end_so123_witness :
  let db := Examples.db_answering (inr Examples.so123_result) in
  table_status db "logistics" = None /\
  table_query db "logistics" "order_id" (PStr "SO123") = inr Examples.so123_result /\
  Envelope.body_of_run (lambda_handler db Examples.so123_event PNone)
  = Some Examples.so123_text.
Proof.
  intros db. split; [reflexivity |]. split; [reflexivity |].
  rewrite (proj2 (end_to_end_so123 db PNone eq_refl eq_refl)). reflexivity.
Defined.



(** C2, as the code has it.  For a valid event whose query call fails with
    an exception other than a [ValueError], [lambda_handler] returns status
    500, and the error message is [Database query error: ] followed by the
    storage layer's message for a [ClientError], and
    [Failed to query logistics data: ] followed by the exception text
    otherwise: the body does contain the internal text, JSON-escaped. *)
Theorem storage_failure_surfaced (db : dynamodb) (event context : pyval)
    (sales_id : string) (e : exn) :
  valid_event event sales_id ->
  table_status db "logistics" = None ->
  table_query db "logistics" "order_id" (PStr sales_id) = inl e ->
  is_value_error e = false ->
  exists t envelope body,
    lambda_handler db event context = (t, inr envelope) /\
    envelope = Envelope.error (surfaced_message e) 500 /\
    Envelope.status_code envelope = Some 500%Z /\
    Envelope.body envelope = Some body /\
    Json.dumps (PDict [("error", PStr (surfaced_message e))]) = inr body /\
    Text.occurs (Json.escape (internal_text e)) body.
Proof.
  intros Hvalid Hopen Hquery Hkind.
  assert (Hne : sales_id <> EmptyString).
  { destruct Hvalid as (? & ? & ? & _ & _ & _ & _ & _ & _ & H). exact H. }
  rewrite (lambda_handler_valid db _ context _ Hvalid).
  rewrite (query_logistic_db_open db sales_id Hne Hopen), Hquery.
  unfold surfaced. rewrite Hkind.
  cbv beta iota zeta delta [bind emit]. rewrite except_query_error.
  eexists; eexists; eexists. repeat (split; [reflexivity |]).
  unfold Envelope.error_text, Json.encode_str.
  apply (occurs_wrap _ _ "{" "}"), occurs_append_l, occurs_append_l, occurs_wrap.
  destruct e; try discriminate; cbn [surfaced_message internal_text];
    rewrite escape_append; apply occurs_append_l, occurs_refl.
Qed.

Lemma storage_failure_surfaced_witness :
  let db := Examples.db_answering (inl Examples.not_found) in
  valid_event Examples.so123_event "SO123" /\
  table_status db "logistics" = None /\
  table_query db "logistics" "order_id" (PStr "SO123") = inl Examples.not_found /\
  is_value_error Examples.not_found = false /\
  exists t envelope body,
    lambda_handler db Examples.so123_event PNone = (t, inr envelope) /\
    envelope = Envelope.error (surfaced_message Examples.not_found) 500 /\
    Envelope.status_code envelope = Some 500%Z /\
    Envelope.body envelope = Some body /\
    Json.dumps (PDict [("error", PStr (surfaced_message Examples.not_found))]) = inr body /\
    Text.occurs (Json.escape (internal_text Examples.not_found)) body.
Proof.
  intros db.
  assert (Hvalid : valid_event Examples.so123_event "SO123").
  { exists Examples.so123_fields,
      [PDict [("name", PStr "SalesOrderID"); ("value", PStr "SO123")]],
      (PDict [("name", PStr "SalesOrderID"); ("value", PStr "SO123")]).
    repeat split; try reflexivity. discriminate. }
  split; [exact Hvalid |]. repeat (split; [reflexivity |]).
  exact (storage_failure_surfaced db _ PNone "SO123" _ Hvalid eq_refl eq_refl eq_refl).
Defined.

(** C2 as stated fails: for the example event and a query that raises the
    [ClientError] with message [Requested resource not found], the run does
    not both answer 500 and keep that message out of the body. *)
Lemma storage_failure_text_exposed :
  let db := Examples.db_answering (inl Examples.not_found) in
  valid_event Examples.so123_event "SO123" /\
  table_query db "logistics" "order_id" (PStr "SO123") = inl Examples.not_found /\
  internal_text Examples.not_found = "Requested resource not found" /\
  ~ hides_internal_text db Examples.so123_event PNone "Requested resource not found".
Proof.
  intros db. split.
  { exists Examples.so123_fields,
      [PDict [("name", PStr "SalesOrderID"); ("value", PStr "SO123")]],
      (PDict [("name", PStr "SalesOrderID"); ("value", PStr "SO123")]).
    repeat split; try reflexivity. discriminate. }
  split; [reflexivity |]. split; [reflexivity |].
  intros (t & envelope & body & Hrun & _ & Hbody & Hhidden).
  vm_compute in Hrun. inversion Hrun; subst t envelope. clear Hrun.
  vm_compute in Hbody. inversion Hbody; subst body. clear Hbody.
  apply Hhidden.
  exists ("{" ++ Examples.q ++ "error" ++ Examples.q ++ ": " ++ Examples.q
          ++ "Database query error: "), (Examples.q ++ "}").
  reflexivity.
Qed.

(** C10, the code at a response without [Items].  For a valid event whose
    query returns a mapping that lacks the [Items] key, the
    [LogisticsQueryError] raised for it is caught by the last [except]
    clause of [query_logistic_db] itself and raised again with a prefix:
    the answer is status 500, and its message is
    [Failed to query logistics data: Invalid response format from database],
    not the bare [Invalid response format from database]. *)
Theorem malformed_result_wrapped (db : dynamodb) (event context : pyval)
    (sales_id : string) (result : pydict) :
  valid_event event sales_id ->
  table_status db "logistics" = None ->
  table_query db "logistics" "order_id" (PStr sales_id) = inr result ->
  dict_has "Items" result = false ->
  exists t envelope,
    lambda_handler db event context = (t, inr envelope) /\
    envelope
    = Envelope.error "Failed to query logistics data: Invalid response format from database" 500 /\
    Envelope.status_code envelope = Some 500%Z /\
    Envelope.body envelope <> Some (Envelope.error_text "Invalid response format from database").
Proof.
  intros Hvalid Hopen Hquery Hitems.
  assert (Hne : sales_id <> EmptyString).
  { destruct Hvalid as (? & ? & ? & _ & _ & _ & _ & _ & _ & H). exact H. }
  rewrite (lambda_handler_valid db _ context _ Hvalid).
  rewrite (query_logistic_db_open db sales_id Hne Hopen), Hquery.
  unfold dict_has in Hitems.
  destruct (dict_get "Items" result); [discriminate |].
  cbv beta iota zeta delta [bind emit surfaced is_value_error surfaced_message
                            malformed_response exn_str].
  rewrite except_query_error.
  eexists; eexists. repeat (split; [reflexivity |]).
  vm_compute. discriminate.
Qed.

Lemma malformed_result_wrapped_witness :
  let db := Examples.db_answering (inr Examples.itemless_result) in
  valid_event Examples.so123_event "SO123" /\
  table_status db "logistics" = None /\
  table_query db "logistics" "order_id" (PStr "SO123") = inr Examples.itemless_result /\
  dict_has "Items" Examples.itemless_result = false /\
  exists t envelope,
    lambda_handler db Examples.so123_event PNone = (t, inr envelope) /\
    envelope
    = Envelope.error "Failed to query logistics data: Invalid response format from database" 500 /\
    Envelope.status_code envelope = Some 500%Z /\
    Envelope.body envelope <> Some (Envelope.error_text "Invalid response format from database").
Proof.
  intros db.
  assert (Hvalid : valid_event Examples.so123_event "SO123").
  { exists Examples.so123_fields,
      [PDict [("name", PStr "SalesOrderID"); ("value", PStr "SO123")]],
      (PDict [("name", PStr "SalesOrderID"); ("value", PStr "SO123")]).
    repeat split; try reflexivity. discriminate. }
  split; [exact Hvalid |]. repeat (split; [reflexivity |]).
  exact (malformed_result_wrapped db _ PNone "SO123" _ Hvalid eq_refl eq_refl eq_refl).
Defined.

End Datastore.

(* ===================================================================== *)
(** ** Further facts: every path of the query and of the handler *)
(* ===================================================================== *)

Section PathFacts.
Import Py Eff PyOps Logistics Spec.
Local Open Scope eff_scope.

Variable db : dynamodb.

Lemma bind_fst {A B : Type} (m : M A) (f : A -> M B) :
  fst (bind m f)
  = (fst m ++ match snd m with inr a => fst (f a) | inl _ => [] end)%list.
Proof.
  destruct m as [t [e | a]]; cbn [bind fst snd]; [now rewrite app_nil_r |].
  destruct (f a); reflexivity.
Qed.

Lemma bind_snd {A B : Type} (m : M A) (f : A -> M B) :
  snd (bind m f) = match snd m with inr a => snd (f a) | inl e => inl e end.
Proof.
  destruct m as [t [e | a]]; cbn [bind fst snd]; [reflexivity |].
  destruct (f a); reflexivity.
Qed.

Lemma calls_app (t1 t2 : list effect) : calls (t1 ++ t2) = (calls t1 ++ calls t2)%list.
Proof. apply filter_app. Qed.

Lemma rejected_sales_id_false (v : pyval) :
  rejected_sales_id v = false -> exists s, v = PStr s /\ s <> EmptyString.
Proof.
  unfold rejected_sales_id. intros H. apply orb_false_elim in H. destruct H as [Ht Hs].
  destruct v; try discriminate. exists s. split; [reflexivity |].
  cbn [truthy] in Ht. intros ->. discriminate.
Qed.

(** Line 39-40 and 65-67: a rejected id raises before anything is opened. *)
Lemma query_logistic_db_rejects (v : pyval) :
  rejected_sales_id v = true ->
  query_logistic_db db v
  = ([Log ERROR ("Input validation error: " ++ invalid_sales_id)],
     inl (ValueError invalid_sales_id)).
Proof.
  unfold rejected_sales_id, query_logistic_db. intros ->. reflexivity.
Qed.

(** The table does not open: the error of [setup_dynamodb_table] is caught
    by the last clause of [query_logistic_db] and wrapped once more. *)
Lemma query_logistic_db_closed (sales_id : string) (e : exn) :
  sales_id <> EmptyString ->
  table_status db "logistics" = Some e ->
  query_logistic_db db (PStr sales_id)
  = ([OpenTable "logistics";
      init_failure_record e;
      Log ERROR ("Unexpected error in query_logistic_db: " ++ init_message e)],
     inl (LogisticsQueryError ("Failed to query logistics data: " ++ init_message e))).
Proof.
  intros Hne Hclosed. unfold query_logistic_db, setup_dynamodb_table.
  rewrite (truthy_nonempty _ Hne), Hclosed. cbn [negb isinstance_str orb].
  destruct e; reflexivity.
Qed.

(** All the ways [query_logistic_db] can end. *)
Lemma query_logistic_db_paths (v : pyval) :
  (rejected_sales_id v = true /\
   query_logistic_db db v
   = ([Log ERROR ("Input validation error: " ++ invalid_sales_id)],
      inl (ValueError invalid_sales_id))) \/
  (exists s e,
     v = PStr s /\ s <> EmptyString /\ table_status db "logistics" = Some e /\
     query_logistic_db db v
     = ([OpenTable "logistics";
         init_failure_record e;
         Log ERROR ("Unexpected error in query_logistic_db: " ++ init_message e)],
        inl (LogisticsQueryError ("Failed to query logistics data: " ++ init_message e)))) \/
  (exists s e,
     v = PStr s /\ s <> EmptyString /\ table_status db "logistics" = None /\
     table_query db "logistics" "order_id" v = inl e /\
     query_logistic_db db v
     = ((query_prelude s ++ [query_failure_record e])%list, inl (surfaced e))) \/
  (exists s response,
     v = PStr s /\ s <> EmptyString /\ table_status db "logistics" = None /\
     table_query db "logistics" "order_id" v = inr response /\
     dict_has "Items" response = false /\
     query_logistic_db db v
     = ((query_prelude s
         ++ [query_failure_record (LogisticsQueryError malformed_response)])%list,
        inl (surfaced (LogisticsQueryError malformed_response)))) \/
  (exists s response items,
     v = PStr s /\ s <> EmptyString /\ table_status db "logistics" = None /\
     table_query db "logistics" "order_id" v = inr response /\
     dict_get "Items" response = Some items /\
     query_logistic_db db v
     = ((query_prelude s ++ (if truthy items then [] else [no_data_record s]))%list,
        inr response)).
Proof.
  destruct (rejected_sales_id v) eqn:Hrej.
  - left. split; [reflexivity |]. now apply query_logistic_db_rejects.
  - right. destruct (rejected_sales_id_false v Hrej) as (s & -> & Hne).
    destruct (table_status db "logistics") as [e |] eqn:Hopen.
    + left. exists s, e. repeat (split; [easy |]). now apply query_logistic_db_closed.
    + right. rewrite (query_logistic_db_open db s Hne Hopen).
      destruct (table_query db "logistics" "order_id" (PStr s)) as [e | response] eqn:Hq.
      * left. exists s, e. easy.
      * right. destruct (dict_get "Items" response) as [items |] eqn:Hi.
        -- right. exists s, response, items. easy.
        -- left. exists s, response. unfold dict_has. rewrite Hi. easy.
Qed.

Lemma validate_event_trace (event : pyval) : fst (validate_event event) = [].
Proof.
  unfold validate_event, required_fields, check_fields.
  destruct (contains "apiPath" event) as [e | [|]]; try reflexivity.
  destruct (contains "actionGroup" event) as [e | [|]]; try reflexivity.
  destruct (contains "httpMethod" event) as [e | [|]]; reflexivity.
Qed.


End PathFacts.

Section AttemptFacts.
Import Py Eff PyOps Logistics Spec.
Local Open Scope eff_scope.

Variable db : dynamodb.

Lemma lambda_handler_attempt (event context : pyval) :
  lambda_handler db event context = try_except (attempt db event) except_clauses.
Proof. reflexivity. Qed.

Lemma getitem_inr (v : pyval) (key : string) (x : pyval) :
  getitem v key = inr x -> exists d, v = PDict d /\ dict_get key d = Some x.
Proof.
  destruct v; try discriminate. cbn [getitem].
  destruct (dict_get key entries) as [y |] eqn:Hy; [| discriminate].
  intros H. injection H as <-. now exists entries.
Qed.

Ltac invert_binds :=
  repeat match goal with
  | H : bind _ _ = (_, inr _) |- _ =>
      apply bind_inr in H;
      let Hm := fresh "Hm" in
      destruct H as (? & ? & ? & Hm & H & ?);
      cbv beta in H;
      try (apply lift_inr in Hm; destruct Hm as [Hm ?])
  end.

(** What [extract_and_query] returning means. *)
Lemma extract_and_query_returns (event : pyval) (t : list effect) (body : pydict) :
  extract_and_query db event = (t, inr body) ->
  exists s items,
    s <> EmptyString /\
    table_status db "logistics" = None /\
    table_query db "logistics" "order_id" (PStr s) = inr body /\
    dict_get "Items" body = Some items /\
    t = (query_prelude s ++ (if truthy items then [] else [no_data_record s]))%list.
Proof.
  unfold extract_and_query. intros H. invert_binds.
  match goal with
  | Hs : scan_parameters ?l = (?ts, inr ?v) |- _ =>
      pose proof (scan_parameters_trace l) as Hts; rewrite Hs in Hts;
      cbn [fst] in Hts; rename v into sales_id
  end.
  subst. destruct (negb (truthy sales_id)); [discriminate |].
  destruct (query_logistic_db_paths db sales_id)
    as [(_ & Hq) | [(s & e & _ & _ & _ & Hq) | [(s & e & _ & _ & _ & _ & Hq)
       | [(s & r & _ & _ & _ & _ & _ & Hq) | (s & r & items & -> & Hne & Ho & Hr & Hi & Hq)]]]];
    rewrite Hq in H; try discriminate.
  injection H as <- <-. exists s, items. cbn [app]. auto.
Qed.

(** What the [try] block returning means: the whole path to a 200. *)
Lemma attempt_returns (event : pyval) (t : list effect) (envelope : pyval) :
  attempt db event = (t, inr envelope) ->
  exists d s result items text ag hm,
    event = PDict d /\
    dict_get "apiPath" d = Some (PStr supported_path) /\
    dict_get "actionGroup" d = Some ag /\
    dict_get "httpMethod" d = Some hm /\
    s <> EmptyString /\
    table_status db "logistics" = None /\
    table_query db "logistics" "order_id" (PStr s) = inr result /\
    dict_get "Items" result = Some items /\
    Json.dumps (PDict result) = inr text /\
    envelope = Envelope.make ag (PStr supported_path) hm 200 text /\
    t = success_trace s items.
Proof.
  unfold attempt. intros H.
  apply bind_inr in H. destruct H as (tv & u & t1 & Hv & H & ->).
  pose proof (validate_event_trace event) as Htv. rewrite Hv in Htv. cbn [fst] in Htv.
  subst tv.
  destruct (getitem event "apiPath") as [e | api_path] eqn:Ha; [discriminate |].
  destruct (getitem_inr _ _ _ Ha) as (d & -> & Hd).
  rewrite bind_lift_inr, bind_emit in H. rewrite bind_lift_inr in H.
  destruct (eq_str api_path supported_path) eqn:Heq.
  2: { cbn in H. discriminate. }
  apply eq_str_true in Heq. subst api_path.
  injection H as Ht Hs. subst t1.
  rewrite bind_fst.
  destruct (extract_and_query db (PDict d)) as [tx [e | body]] eqn:Hx;
    [rewrite bind_snd in Hs; discriminate |].
  destruct (extract_and_query_returns _ _ _ Hx) as (s & items & Hne & Ho & Hq & Hi & ->).
  rewrite bind_snd in Hs. cbn [fst snd] in Hs |- *.
  rewrite respond_trace.
  unfold respond in Hs.
  rewrite Ha in Hs.
  destruct (Json.dumps (PDict body)) as [e | text] eqn:Htext; [discriminate |].
  destruct (getitem (PDict d) "actionGroup") as [e | ag] eqn:Hag; [discriminate |].
  destruct (getitem (PDict d) "httpMethod") as [e | hm] eqn:Hhm;
    [cbn in Hs; discriminate |].
  rewrite !bind_lift_inr in Hs. cbn in Hs. injection Hs as <-.
  apply getitem_inr in Hag. destruct Hag as (d1 & Hd1 & Hag). injection Hd1 as <-.
  apply getitem_inr in Hhm. destruct Hhm as (d2 & Hd2 & Hhm). injection Hd2 as <-.
  exists d, s, body, items, text, ag, hm.
  repeat (split; [assumption || reflexivity |]).
  unfold success_trace. cbn [app]. now rewrite !app_nil_r.
Qed.

End AttemptFacts.

(* ===================================================================== *)
(** ** Further properties: failures around the query *)
(* ===================================================================== *)

Section QueryFailures.
Import Py Eff PyOps Logistics Spec.
Local Open Scope eff_scope.

(** X1.  When the [logistics] table cannot be opened, a valid event is
    answered with status 500; the message is
    [Failed to query logistics data: ] followed by what
    [setup_dynamodb_table] raised, that is
    [Database initialization error: <message>] for a [ClientError] and the
    fixed [Failed to initialize database connection] for anything else.  The
    table is the only thing touched: no query is made. *)
Theorem table_open_failure_answers_500 (db : dynamodb) (event context : pyval)
    (sales_id : string) (e : exn) :
  valid_event event sales_id ->
  table_status db "logistics" = Some e ->
  exists t,
    lambda_handler db event context
    = (t, inr (Envelope.error ("Failed to query logistics data: " ++ init_message e) 500)) /\
    calls t = [OpenTable "logistics"].
Proof.
  intros Hvalid Hclosed.
  assert (Hne : sales_id <> EmptyString).
  { destruct Hvalid as (? & ? & ? & _ & _ & _ & _ & _ & _ & H). exact H. }
  rewrite (lambda_handler_valid db _ context _ Hvalid).
  rewrite (query_logistic_db_closed db sales_id e Hne Hclosed).
  cbv beta iota zeta delta [bind emit]. rewrite except_query_error.
  eexists. split; [reflexivity |].
  destruct e; reflexivity.
Qed.

Lemma table_open_failure_answers_500_witness :
  let db := Examples.db_closed Examples.not_found in
  valid_event Examples.so123_event "SO123" /\
  table_status db "logistics" = Some Examples.not_found /\
  exists t,
    lambda_handler db Examples.so123_event PNone
    = (t, inr (Envelope.error
         "Failed to query logistics data: Database initialization error: Requested resource not found"
         500)) /\
    calls t = [OpenTable "logistics"].
Proof.
  intros db.
  assert (Hvalid : valid_event Examples.so123_event "SO123").
  { exists Examples.so123_fields,
      [PDict [("name", PStr "SalesOrderID"); ("value", PStr "SO123")]],
      (PDict [("name", PStr "SalesOrderID"); ("value", PStr "SO123")]).
    repeat split; try reflexivity. discriminate. }
  split; [exact Hvalid |]. split; [reflexivity |].
  exact (table_open_failure_answers_500 db _ PNone "SO123" _ Hvalid eq_refl).
Defined.

(** X2.  A first [SalesOrderID] entry whose value is truthy but not a string
    (a number, a list, ...) passes the handler's own check and is stopped by
    [query_logistic_db]: the answer is status 400 with the message
    [Invalid sales ID provided], and the datastore is not touched. *)
Theorem non_string_sales_id_rejected (db : dynamodb) (d : pydict) (context : pyval)
    (ps : list pyval) (p : pyval) :
  routed_event d ->
  dict_get "parameters" d = Some (PList ps) ->
  forallb is_mapping ps = true ->
  find is_sales_order_entry ps = Some p ->
  truthy (entry_value p) = true ->
  isinstance_str (entry_value p) = false ->
  exists t,
    lambda_handler db (PDict d) context = (t, inr (Envelope.error invalid_sales_id 400)) /\
    calls t = [].
Proof.
  intros Hr Hp Hall Hfind Htruthy Hstr.
  pose proof (routed_event_validated d Hr) as Hv. destruct Hr as (Ha & _).
  rewrite (lambda_handler_validated db d context _ Hv Ha).
  cbn [eq_str supported_path]. rewrite String.eqb_refl.
  rewrite (extract_and_query_mappings db d ps Hp Hall), Hfind. cbv zeta.
  rewrite Htruthy. cbn [negb].
  rewrite query_logistic_db_rejects
    by (unfold rejected_sales_id; rewrite Hstr; apply orb_true_r).
  eexists. split; reflexivity.
Qed.

Lemma non_string_sales_id_rejected_witness :
  let d := Examples.fields_with_parameters (PList Examples.numeric_id) in
  let db := Examples.db_answering (inr Examples.so123_result) in
  routed_event d /\
  dict_get "parameters" d = Some (PList Examples.numeric_id) /\
  exists t,
    lambda_handler db (PDict d) PNone = (t, inr (Envelope.error invalid_sales_id 400)) /\
    calls t = [].
Proof.
  intros d db.
  assert (Hr : routed_event d) by (repeat split; reflexivity).
  split; [exact Hr |]. split; [reflexivity |].
  exact (non_string_sales_id_rejected db d PNone Examples.numeric_id
           (PDict [("name", PStr "SalesOrderID"); ("value", PInt 123)])
           Hr eq_refl eq_refl eq_refl eq_refl eq_refl).
Defined.

(** X3.  A [ValueError] raised by the query call itself is let through by
    [query_logistic_db] unchanged, so [lambda_handler] takes it for a
    validation error: status 400 with the exception's own text, although
    the table was opened and the query made. *)
Theorem query_value_error_answers_400 (db : dynamodb) (event context : pyval)
    (sales_id msg : string) :
  valid_event event sales_id ->
  table_status db "logistics" = None ->
  table_query db "logistics" "order_id" (PStr sales_id) = inl (ValueError msg) ->
  exists t,
    lambda_handler db event context = (t, inr (Envelope.error msg 400)) /\
    calls t = [OpenTable "logistics"; Query "logistics" "order_id" (PStr sales_id)].
Proof.
  intros Hvalid Hopen Hquery.
  assert (Hne : sales_id <> EmptyString).
  { destruct Hvalid as (? & ? & ? & _ & _ & _ & _ & _ & _ & H). exact H. }
  rewrite (lambda_handler_valid db _ context _ Hvalid).
  rewrite (query_logistic_db_open db sales_id Hne Hopen), Hquery.
  cbv beta iota zeta delta [bind emit surfaced is_value_error].
  rewrite except_value_error.
  eexists. split; reflexivity.
Qed.

Lemma query_value_error_answers_400_witness :
  let db := Examples.db_answering (inl (ValueError "Invalid endpoint")) in
  valid_event Examples.so123_event "SO123" /\
  table_status db "logistics" = None /\
  table_query db "logistics" "order_id" (PStr "SO123") = inl (ValueError "Invalid endpoint") /\
  exists t,
    lambda_handler db Examples.so123_event PNone
    = (t, inr (Envelope.error "Invalid endpoint" 400)) /\
    calls t = [OpenTable "logistics"; Query "logistics" "order_id" (PStr "SO123")].
Proof.
  intros db.
  assert (Hvalid : valid_event Examples.so123_event "SO123").
  { exists Examples.so123_fields,
      [PDict [("name", PStr "SalesOrderID"); ("value", PStr "SO123")]],
      (PDict [("name", PStr "SalesOrderID"); ("value", PStr "SO123")]).
    repeat split; try reflexivity. discriminate. }
  split; [exact Hvalid |]. repeat (split; [reflexivity |]).
  exact (query_value_error_answers_400 db _ PNone "SO123" _ Hvalid eq_refl eq_refl).
Defined.



End QueryFailures.

(* ===================================================================== *)
(** ** Further properties: what every run keeps to *)
(* ===================================================================== *)

Section RunInvariantFacts.
Import Py Eff PyOps Logistics Spec.
Local Open Scope eff_scope.

Variable db : dynamodb.

Lemma try_except_calls (m : M pyval) :
  calls (fst (try_except m except_clauses)) = calls (fst m).
Proof.
  destruct m as [t [e | a]]; [| reflexivity].
  rewrite try_except_raise. cbn [fst]. rewrite calls_app.
  unfold calls at 2. rewrite except_clauses_no_call. apply app_nil_r.
Qed.

Lemma calls_prelude (s : string) (logs : list effect) :
  calls logs = [] ->
  calls (query_prelude s ++ logs)
  = [OpenTable "logistics"; Query "logistics" "order_id" (PStr s)].
Proof. intros H. rewrite calls_app, H. reflexivity. Qed.

Lemma query_logistic_db_discipline (v : pyval) :
  call_discipline (calls (fst (query_logistic_db db v))).
Proof.
  destruct (query_logistic_db_paths db v)
    as [(_ & Hq) | [(s & e & _ & _ & _ & Hq) | [(s & e & _ & Hne & _ & _ & Hq)
       | [(s & r & _ & Hne & _ & _ & _ & Hq) | (s & r & items & _ & Hne & _ & _ & _ & Hq)]]]];
    rewrite Hq; cbn [fst].
  - left. reflexivity.
  - right; left. destruct e; reflexivity.
  - right; right. exists s. split; [exact Hne |].
    apply calls_prelude. destruct e; reflexivity.
  - right; right. exists s. split; [exact Hne |]. now apply calls_prelude.
  - right; right. exists s. split; [exact Hne |].
    apply calls_prelude. destruct (truthy items); reflexivity.
Qed.

Lemma extract_and_query_discipline (event : pyval) :
  call_discipline (calls (fst (extract_and_query db event))).
Proof.
  unfold extract_and_query.
  destruct (method_get event "parameters" (PList [])) as [e | parameters]; [now left |].
  rewrite bind_lift_inr.
  destruct (iter parameters) as [e | entries]; [now left |].
  rewrite bind_lift_inr.
  pose proof (scan_parameters_trace entries) as Ht.
  destruct (scan_parameters entries) as [ts [e | sales_id]]; cbn [fst] in Ht; subst ts;
    [now left |].
  rewrite (bind_ret sales_id). destruct (negb (truthy sales_id)); [now left |].
  apply query_logistic_db_discipline.
Qed.

Lemma attempt_discipline (event : pyval) :
  call_discipline (calls (fst (attempt db event))).
Proof.
  unfold attempt.
  pose proof (validate_event_trace event) as Htv.
  destruct (validate_event event) as [tv [e | u]]; cbn [fst] in Htv; subst tv; [now left |].
  rewrite (bind_ret u).
  destruct (getitem event "apiPath") as [e | api_path]; [now left |].
  rewrite bind_lift_inr, bind_emit, bind_lift_inr. cbn [fst].
  destruct (eq_str api_path supported_path).
  - rewrite bind_fst. unfold calls. cbn [filter processing_record is_datastore_call].
    rewrite filter_app.
    destruct (snd (extract_and_query db event)) as [e | body].
    + rewrite app_nil_r. apply extract_and_query_discipline.
    + rewrite respond_trace, app_nil_r. apply extract_and_query_discipline.
  - left. reflexivity.
Qed.

End RunInvariantFacts.

Section RunInvariants.
Import Py Eff PyOps Logistics Spec.
Local Open Scope eff_scope.

(** X5.  On an event that is not a mapping ([None], a number, a string, a
    list, ...) the handler neither answers 200 nor touches the datastore:
    the answer is status 500 with [Internal server error], or, for a string
    or a list in which a field name does not occur, status 400 with
    [Missing required field: <field>]. *)
Theorem non_mapping_event_never_succeeds (db : dynamodb) (event context : pyval) :
  is_mapping event = false ->
  exists t message status,
    lambda_handler db event context = (t, inr (Envelope.error message status)) /\
    calls t = [] /\
    ((status = 500%Z /\ message = internal_error) \/
     (status = 400%Z /\ exists field,
        In field required_fields /\
        contains field event = inr false /\
        message = "Missing required field: " ++ field)).
Proof.
  intros Hm. rewrite lambda_handler_blocks.
  unfold validate_event, required_fields, check_fields.
  destruct event as [| b | n | f | s | l | d | x nz]; try discriminate;
    try (eexists; exists internal_error, 500%Z;
         split; [reflexivity | split; [reflexivity | left; split; reflexivity]]).
  - cbn [contains].
    destruct (Text.contains "apiPath" s) eqn:H1.
    2: { eexists; exists "Missing required field: apiPath", 400%Z.
         split; [reflexivity | split; [reflexivity | right; split; [reflexivity |]]].
         exists "apiPath". cbn [contains In]. rewrite H1. auto. }
    destruct (Text.contains "actionGroup" s) eqn:H2.
    2: { eexists; exists "Missing required field: actionGroup", 400%Z.
         split; [reflexivity | split; [reflexivity | right; split; [reflexivity |]]].
         exists "actionGroup". cbn [contains In]. rewrite H2. auto. }
    destruct (Text.contains "httpMethod" s) eqn:H3.
    2: { eexists; exists "Missing required field: httpMethod", 400%Z.
         split; [reflexivity | split; [reflexivity | right; split; [reflexivity |]]].
         exists "httpMethod". cbn [contains In]. rewrite H3. auto. }
    eexists; exists internal_error, 500%Z.
    split; [reflexivity | split; [reflexivity | left; split; reflexivity]].
  - cbn [contains].
    destruct (existsb (fun x => eq_str x "apiPath") l) eqn:H1.
    2: { eexists; exists "Missing required field: apiPath", 400%Z.
         split; [reflexivity | split; [reflexivity | right; split; [reflexivity |]]].
         exists "apiPath". cbn [contains In]. rewrite H1. auto. }
    destruct (existsb (fun x => eq_str x "actionGroup") l) eqn:H2.
    2: { eexists; exists "Missing required field: actionGroup", 400%Z.
         split; [reflexivity | split; [reflexivity | right; split; [reflexivity |]]].
         exists "actionGroup". cbn [contains In]. rewrite H2. auto. }
    destruct (existsb (fun x => eq_str x "httpMethod") l) eqn:H3.
    2: { eexists; exists "Missing required field: httpMethod", 400%Z.
         split; [reflexivity | split; [reflexivity | right; split; [reflexivity |]]].
         exists "httpMethod". cbn [contains In]. rewrite H3. auto. }
    eexists; exists internal_error, 500%Z.
    split; [reflexivity | split; [reflexivity | left; split; reflexivity]].
Qed.

Lemma non_mapping_event_never_succeeds_witness :
  let event := PList [PStr "apiPath"; PStr "actionGroup"] in
  is_mapping event = false /\
  exists t message status,
    lambda_handler (Examples.db_answering (inr Examples.so123_result)) event PNone
    = (t, inr (Envelope.error message status)) /\
    calls t = [] /\
    ((status = 500%Z /\ message = internal_error) \/
     (status = 400%Z /\ exists field,
        In field required_fields /\
        contains field event = inr false /\
        message = "Missing required field: " ++ field)).
Proof.
  intros event. split; [reflexivity |].
  apply (non_mapping_event_never_succeeds _ event PNone). reflexivity.
Defined.

(** X6.  A 200 answer is never made up: whenever [lambda_handler] returns
    status 200, the event is a mapping with the supported path, the
    [logistics] table opened, the query on [order_id] for a non-empty
    string returned a response that has [Items], and the envelope carries
    the event's own [actionGroup] and [httpMethod] and the JSON text of
    exactly that response. *)
Theorem success_comes_from_query (db : dynamodb) (event context : pyval)
    (t : list effect) (envelope : pyval) :
  lambda_handler db event context = (t, inr envelope) ->
  Envelope.status_code envelope = Some 200%Z ->
  exists d s result items text ag hm,
    event = PDict d /\
    dict_get "apiPath" d = Some (PStr supported_path) /\
    dict_get "actionGroup" d = Some ag /\
    dict_get "httpMethod" d = Some hm /\
    s <> EmptyString /\
    table_status db "logistics" = None /\
    table_query db "logistics" "order_id" (PStr s) = inr result /\
    dict_get "Items" result = Some items /\
    Json.dumps (PDict result) = inr text /\
    envelope = Envelope.make ag (PStr supported_path) hm 200 text /\
    t = success_trace s items.
Proof.
  intros Hrun Hstatus. rewrite lambda_handler_attempt in Hrun.
  destruct (attempt db event) as [ta [e | env]] eqn:Hatt.
  - rewrite try_except_raise in Hrun.
    destruct (except_clauses_error e) as (t' & env & He & (m & st & Hst & ->)).
    rewrite He in Hrun. cbn [fst snd] in Hrun. injection Hrun as _ <-.
    cbv in Hstatus. injection Hstatus as ->. destruct Hst; discriminate.
  - rewrite try_except_value in Hrun. injection Hrun as <- <-.
    now apply attempt_returns.
Qed.

Lemma success_comes_from_query_witness :
  let db := Examples.db_answering (inr Examples.so123_result) in
  exists t envelope,
    lambda_handler db Examples.so123_event PNone = (t, inr envelope) /\
    Envelope.status_code envelope = Some 200%Z /\
    exists d s result items text ag hm,
      Examples.so123_event = PDict d /\
      dict_get "apiPath" d = Some (PStr supported_path) /\
      dict_get "actionGroup" d = Some ag /\
      dict_get "httpMethod" d = Some hm /\
      s <> EmptyString /\
      table_status db "logistics" = None /\
      table_query db "logistics" "order_id" (PStr s) = inr result /\
      dict_get "Items" result = Some items /\
      Json.dumps (PDict result) = inr text /\
      envelope = Envelope.make ag (PStr supported_path) hm 200 text /\
      t = success_trace s items.
Proof.
  intros db.
  destruct (lambda_handler db Examples.so123_event PNone) as [t [e | envelope]] eqn:Hrun;
    [vm_compute in Hrun; discriminate |].
  assert (Hstatus : Envelope.status_code envelope = Some 200%Z).
  { vm_compute in Hrun. inversion Hrun. reflexivity. }
  exists t, envelope. split; [reflexivity |]. split; [exact Hstatus |].
  exact (success_comes_from_query db Examples.so123_event PNone t envelope Hrun Hstatus).
Defined.

(** X7.  In every run, whatever the event and the datastore, the calls made
    on DynamoDB are none, or the opening of the [logistics] table alone, or
    that opening followed by a single query on [order_id] for a non-empty
    string: never another table or key, never a second query or a retry,
    never a query before the table opened. *)
Theorem datastore_call_discipline (db : dynamodb) (event context : pyval) :
  call_discipline (calls (trace (lambda_handler db event context))).
Proof.
  rewrite lambda_handler_attempt. unfold trace.
  rewrite try_except_calls. apply attempt_discipline.
Qed.

(** X8.  The log tells the answer.  Every run returns an envelope, and
    either it has status 200 and no [ERROR] record was logged, or it is an
    error envelope and the last record logged is the handler's own [ERROR]
    record: for status 400 and for a [LogisticsQueryError] it carries the
    very message returned to the caller, and for the generic
    [Internal server error] it carries the exception text that the caller
    does not get. *)
Theorem answer_matches_log (db : dynamodb) (event context : pyval) :
  exists t envelope,
    lambda_handler db event context = (t, inr envelope) /\
    ((Envelope.status_code envelope = Some 200%Z /\ filter is_error_record t = []) \/
     (exists message status earlier record,
        envelope = Envelope.error message status /\
        t = (earlier ++ [record])%list /\
        answer_record message status record)).
Proof.
  rewrite lambda_handler_attempt.
  destruct (attempt db event) as [ta [e | env]] eqn:Hatt.
  - destruct e as [m | m | c m x | c x]; unfold answer_record.
    + exists (ta ++ [Log ERROR ("Validation error: " ++ m)])%list, (Envelope.error m 400).
      split; [reflexivity |]. right.
      exists m, 400%Z, ta, (Log ERROR ("Validation error: " ++ m)).
      split; [reflexivity |]. split; [reflexivity |]. left. auto.
    + exists (ta ++ [Log ERROR ("Logistics query error: " ++ m)])%list,
        (Envelope.error m 500).
      split; [reflexivity |]. right.
      exists m, 500%Z, ta, (Log ERROR ("Logistics query error: " ++ m)).
      split; [reflexivity |]. split; [reflexivity |]. right; left. auto.
    + exists (ta ++ [Log ERROR ("Unexpected error: " ++ x)])%list,
        (Envelope.error internal_error 500).
      split; [reflexivity |]. right.
      exists internal_error, 500%Z, ta, (Log ERROR ("Unexpected error: " ++ x)).
      split; [reflexivity |]. split; [reflexivity |]. right; right. eauto.
    + exists (ta ++ [Log ERROR ("Unexpected error: " ++ x)])%list,
        (Envelope.error internal_error 500).
      split; [reflexivity |]. right.
      exists internal_error, 500%Z, ta, (Log ERROR ("Unexpected error: " ++ x)).
      split; [reflexivity |]. split; [reflexivity |]. right; right. eauto.
  - rewrite try_except_value. exists ta, env. split; [reflexivity |]. left.
    destruct (attempt_returns db _ _ _ Hatt)
      as (d & s & result & items & text & ag & hm & _ & _ & _ & _ & _ & _ & _ & _ & _ & -> & ->).
    split; [reflexivity |].
    unfold success_trace. destruct (truthy items); reflexivity.
Qed.

End RunInvariants.

(* ===================================================================== *)
(** ** Further properties: the shapes of [parameters] *)
(* ===================================================================== *)

Section ParameterShapeFacts.
Import Py Eff PyOps Logistics Spec.
Local Open Scope eff_scope.

Variable db : dynamodb.

(** The loop passes over mappings with another name. *)
Lemma scan_parameters_skips (pre rest : list pyval) :
  forallb is_mapping pre = true ->
  find is_sales_order_entry pre = None ->
  scan_parameters (pre ++ rest)%list = scan_parameters rest.
Proof.
  induction pre as [| p pre IH]; [reflexivity |].
  destruct p as [| | | | | | e |]; try discriminate.
  cbn [forallb is_mapping andb find is_sales_order_entry].
  intros Hall Hfind. cbn [app scan_parameters method_get].
  destruct (dict_get "name" e) as [n |].
  - rewrite bind_lift_inr. destruct (eq_str n "SalesOrderID"); [discriminate |].
    now apply IH.
  - rewrite bind_lift_inr. cbn [eq_str]. now apply IH.
Qed.

(** It stops at the first entry with the name, whatever follows. *)
Lemma scan_parameters_first (pre post : list pyval) (p : pyval) :
  forallb is_mapping pre = true ->
  find is_sales_order_entry pre = None ->
  is_sales_order_entry p = true ->
  scan_parameters (pre ++ p :: post)%list = ret (entry_value p).
Proof.
  intros Hall Hfind Hp. rewrite (scan_parameters_skips _ _ Hall Hfind).
  destruct p as [| | | | | | e |]; try discriminate.
  cbn [is_sales_order_entry] in Hp. cbn [scan_parameters method_get entry_value].
  destruct (dict_get "name" e) as [n |]; [| discriminate].
  rewrite bind_lift_inr, Hp. destruct (dict_get "value" e); reflexivity.
Qed.

(** It raises at a value that is not a mapping. *)
Lemma scan_parameters_stray (x : pyval) (post : list pyval) :
  is_mapping x = false ->
  scan_parameters (x :: post)
  = raise (AttributeError ("'" ++ type_name x ++ "' object has no attribute 'get'")).
Proof. destruct x; try discriminate; reflexivity. Qed.

Lemma extract_and_query_list (d : pydict) (ps : list pyval) :
  dict_get "parameters" d = Some (PList ps) ->
  extract_and_query db (PDict d) =
  (sales_id <- scan_parameters ps ;;
   if negb (truthy sales_id)
   then raise (ValueError "SalesOrderID parameter is missing or invalid")
   else query_logistic_db db sales_id).
Proof.
  intros Hp. unfold extract_and_query, method_get. rewrite Hp.
  rewrite bind_lift_inr. cbn [iter]. now rewrite bind_lift_inr.
Qed.

Lemma respond_same_fields (d d' : pydict) (body : pydict) :
  dict_get "actionGroup" d = dict_get "actionGroup" d' ->
  dict_get "apiPath" d = dict_get "apiPath" d' ->
  dict_get "httpMethod" d = dict_get "httpMethod" d' ->
  respond (PDict d) body = respond (PDict d') body.
Proof. unfold respond, getitem. now intros -> -> ->. Qed.

End ParameterShapeFacts.

Section ParameterShapes.
Import Py Eff PyOps Logistics Spec.
Local Open Scope eff_scope.

(** X9.  When the parameter list holds a value that is not a mapping (a
    string, a number, [None], ...) before any [SalesOrderID] entry, the loop
    fails on it: the answer is status 500 with [Internal server error], not
    a 400, and the datastore is not touched, even if a good entry follows. *)
Theorem stray_parameter_entry_answers_500 (db : dynamodb) (d : pydict) (context : pyval)
    (pre post : list pyval) (x : pyval) :
  routed_event d ->
  dict_get "parameters" d = Some (PList (pre ++ x :: post)) ->
  forallb is_mapping pre = true ->
  find is_sales_order_entry pre = None ->
  is_mapping x = false ->
  exists t,
    lambda_handler db (PDict d) context = (t, inr (Envelope.error internal_error 500)) /\
    calls t = [].
Proof.
  intros Hr Hp Hall Hfind Hx.
  pose proof (routed_event_validated d Hr) as Hv. destruct Hr as (Ha & _).
  rewrite (lambda_handler_validated db d context _ Hv Ha).
  cbn [eq_str supported_path]. rewrite String.eqb_refl.
  rewrite (extract_and_query_list db d _ Hp).
  rewrite (scan_parameters_skips _ _ Hall Hfind), (scan_parameters_stray _ _ Hx).
  eexists. split; reflexivity.
Qed.

Lemma stray_parameter_entry_answers_500_witness :
  let d := Examples.fields_with_parameters (PList Examples.stray_entry) in
  let db := Examples.db_answering (inr Examples.so123_result) in
  routed_event d /\
  dict_get "parameters" d = Some (PList Examples.stray_entry) /\
  exists t,
    lambda_handler db (PDict d) PNone = (t, inr (Envelope.error internal_error 500)) /\
    calls t = [].
Proof.
  intros d db.
  assert (Hr : routed_event d) by (repeat split; reflexivity).
  split; [exact Hr |]. split; [reflexivity |].
  exact (stray_parameter_entry_answers_500 db d PNone
           [PDict [("name", PStr "Other"); ("value", PStr "x")]]
           [PDict [("name", PStr "SalesOrderID"); ("value", PStr "SO123")]]
           (PStr "SalesOrderID") Hr eq_refl eq_refl eq_refl eq_refl).
Defined.

(** X10.  The loop stops at the first [SalesOrderID] entry: what follows it
    in the parameter list is never looked at.  Two events that agree on the
    three required fields and on the parameter list up to and with that
    entry get the same run, whatever comes after it, values that are not
    mappings and further [SalesOrderID] entries included. *)
Theorem entries_after_first_match_ignored (db : dynamodb) (d d' : pydict)
    (context : pyval) (pre post post' : list pyval) (p : pyval) :
  routed_event d ->
  routed_event d' ->
  dict_get "actionGroup" d = dict_get "actionGroup" d' ->
  dict_get "httpMethod" d = dict_get "httpMethod" d' ->
  dict_get "parameters" d = Some (PList (pre ++ p :: post)) ->
  dict_get "parameters" d' = Some (PList (pre ++ p :: post')) ->
  forallb is_mapping pre = true ->
  find is_sales_order_entry pre = None ->
  is_sales_order_entry p = true ->
  lambda_handler db (PDict d) context = lambda_handler db (PDict d') context.
Proof.
  intros Hr Hr' Hag Hhm Hp Hp' Hall Hfind Hmatch.
  pose proof (routed_event_validated d Hr) as Hv.
  pose proof (routed_event_validated d' Hr') as Hv'.
  destruct Hr as (Ha & _). destruct Hr' as (Ha' & _).
  rewrite (lambda_handler_validated db d context _ Hv Ha).
  rewrite (lambda_handler_validated db d' context _ Hv' Ha').
  cbn [eq_str supported_path]. rewrite String.eqb_refl.
  rewrite (extract_and_query_list db d _ Hp), (extract_and_query_list db d' _ Hp').
  rewrite !(scan_parameters_first _ _ _ Hall Hfind Hmatch).
  f_equal. f_equal. f_equal.
  assert (Hsame : forall body, respond (PDict d) body = respond (PDict d') body).
  { intros body. apply respond_same_fields; congruence. }
  destruct (bind (ret (entry_value p)) _) as [tq [e | body]]; [reflexivity |].
  unfold bind. now rewrite Hsame.
Qed.

Lemma entries_after_first_match_ignored_witness :
  let d := Examples.fields_with_parameters (PList Examples.stray_tail) in
  let db := Examples.db_answering (inr Examples.so123_result) in
  routed_event d /\
  dict_get "parameters" d = Some (PList Examples.stray_tail) /\
  dict_get "parameters" Examples.so123_fields
  = Some (PList [PDict [("name", PStr "SalesOrderID"); ("value", PStr "SO123")]]) /\
  lambda_handler db (PDict d) PNone = lambda_handler db Examples.so123_event PNone.
Proof.
  intros d db.
  assert (Hr : routed_event d) by (repeat split; reflexivity).
  assert (Hr' : routed_event Examples.so123_fields) by (repeat split; reflexivity).
  split; [exact Hr |]. split; [reflexivity |]. split; [reflexivity |].
  exact (entries_after_first_match_ignored db d Examples.so123_fields PNone
           [] [PInt 7; PNone] []
           (PDict [("name", PStr "SalesOrderID"); ("value", PStr "SO123")])
           Hr Hr' eq_refl eq_refl eq_refl eq_refl eq_refl eq_refl eq_refl).
Defined.

(** X11.  When [parameters] is present but not a list, the datastore is
    not touched, and the answer is status 400 with the missing-parameter
    message only for the empty string and the empty mapping (nothing to
    loop over); every other value ([None], a number, a non-empty string or
    mapping) gives status 500 with [Internal server error]. *)
Theorem non_list_parameters (db : dynamodb) (d : pydict) (context v : pyval) :
  routed_event d ->
  dict_get "parameters" d = Some v ->
  is_list v = false ->
  exists t,
    lambda_handler db (PDict d) context
    = (t, inr (if is_iterable v && negb (truthy v)
               then Envelope.error missing_parameter 400
               else Envelope.error internal_error 500)) /\
    calls t = [].
Proof.
  intros Hr Hp Hl.
  pose proof (routed_event_validated d Hr) as Hv. destruct Hr as (Ha & _).
  rewrite (lambda_handler_validated db d context _ Hv Ha).
  cbn [eq_str supported_path]. rewrite String.eqb_refl.
  unfold extract_and_query, method_get. rewrite Hp. rewrite bind_lift_inr.
  destruct v as [| b | n | f | s | l | e | x nz]; try discriminate;
    try (eexists; split; reflexivity).
  - destruct s as [| c s]; eexists; split; reflexivity.
  - destruct e as [| [k x] e]; eexists; split; reflexivity.
Qed.

Lemma non_list_parameters_witness :
  let d := Examples.fields_with_parameters PNone in
  let db := Examples.db_answering (inr Examples.so123_result) in
  routed_event d /\
  dict_get "parameters" d = Some PNone /\
  is_list PNone = false /\
  exists t,
    lambda_handler db (PDict d) PNone
    = (t, inr (if is_iterable PNone && negb (truthy PNone)
               then Envelope.error missing_parameter 400
               else Envelope.error internal_error 500)) /\
    calls t = [].
Proof.
  intros d db.
  assert (Hr : routed_event d) by (repeat split; reflexivity).
  split; [exact Hr |]. split; [reflexivity |]. split; [reflexivity |].
  exact (non_list_parameters db d PNone PNone Hr eq_refl eq_refl).
Defined.

End ParameterShapes.

(* ===================================================================== *)
(** ** Further properties: the exceptions of [query_logistic_db] *)
(* ===================================================================== *)

Section QueryExceptions.
Import Py Eff PyOps Logistics Spec.
Local Open Scope eff_scope.

(** X12.  Whatever the argument and whatever DynamoDB does,
    [query_logistic_db] raises nothing but a [ValueError] or a
    [LogisticsQueryError]: a [ClientError] or any other exception of the
    table opening or of the query never leaves it as such.  The
    [ValueError] is its own [Invalid sales ID provided] or one the query
    call raised. *)
Theorem query_logistic_db_raises_two_classes (db : dynamodb) (v : pyval)
    (t : list effect) (e : exn) :
  query_logistic_db db v = (t, inl e) ->
  (exists m, e = LogisticsQueryError m) \/
  (e = ValueError invalid_sales_id /\ rejected_sales_id v = true /\ calls t = []) \/
  (exists m, e = ValueError m /\
     table_query db "logistics" "order_id" v = inl (ValueError m)).
Proof.
  intros H.
  destruct (query_logistic_db_paths db v)
    as [(Hrej & Hq) | [(s & e' & _ & _ & _ & Hq) | [(s & e' & _ & _ & _ & Hr & Hq)
       | [(s & r & _ & _ & _ & _ & _ & Hq) | (s & r & items & _ & _ & _ & _ & _ & Hq)]]]];
    rewrite Hq in H; try discriminate; injection H as <- <-.
  - right; left. auto.
  - left. eauto.
  - destruct e'; cbn [surfaced is_value_error]; eauto.
  - left. cbn. eauto.
Qed.

Lemma query_logistic_db_raises_two_classes_witness :
  let db := Examples.db_answering (inl Examples.not_found) in
  exists t e,
    query_logistic_db db (PStr "SO123") = (t, inl e) /\
    ((exists m, e = LogisticsQueryError m) \/
     (e = ValueError invalid_sales_id /\ rejected_sales_id (PStr "SO123") = true /\
      calls t = []) \/
     (exists m, e = ValueError m /\
        table_query db "logistics" "order_id" (PStr "SO123") = inl (ValueError m))).
Proof.
  intros db.
  destruct (query_logistic_db db (PStr "SO123")) as [t [e | r]] eqn:Hq;
    [| vm_compute in Hq; discriminate].
  exists t, e. split; [reflexivity |].
  exact (query_logistic_db_raises_two_classes db (PStr "SO123") t e Hq).
Defined.

End QueryExceptions.

(* ===================================================================== *)
(** ** Properties of every run: the envelope and what it serializes *)
(* ===================================================================== *)

Section AnswerFacts.
Import Py Eff PyOps Logistics Spec.
Local Open Scope eff_scope.

Variable db : dynamodb.

Lemma except_clauses_answer (e : exn) :
  except_clauses e
  = ([answer_log e], inr (Envelope.error (fst (answer_of e)) (snd (answer_of e)))).
Proof. destruct e; reflexivity. Qed.

Lemma answer_of_status (e : exn) : snd (answer_of e) = 400%Z \/ snd (answer_of e) = 500%Z.
Proof. destruct e; cbn; auto. Qed.

Lemma serializes_error (message : string) (status : Z) :
  Envelope.serializes (Envelope.error message status) (PDict [("error", PStr message)]).
Proof. exists (Envelope.error_text message). split; reflexivity. Qed.

Lemma serializes_make (ag ap hm payload : pyval) (status : Z) (text : string) :
  Json.dumps payload = inr text ->
  Envelope.serializes (Envelope.make ag ap hm status text) payload.
Proof. intros H. exists text. split; [reflexivity | exact H]. Qed.

Lemma error_fields (message : string) (status : Z) :
  Envelope.response_field "actionGroup" (Envelope.error message status)
    = Some (PStr "unknown") /\
  Envelope.response_field "apiPath" (Envelope.error message status)
    = Some (PStr "unknown") /\
  Envelope.response_field "httpMethod" (Envelope.error message status)
    = Some (PStr "unknown") /\
  Envelope.status_code (Envelope.error message status) = Some status.
Proof. repeat split. Qed.

(** A run whose [try] block raised [e]. *)
Lemma lambda_handler_raised (event context : pyval) (ta : list effect) (e : exn) :
  attempt db event = (ta, inl e) ->
  lambda_handler db event context
  = ((ta ++ [answer_log e])%list,
     inr (Envelope.error (fst (answer_of e)) (snd (answer_of e)))).
Proof.
  intros H. rewrite lambda_handler_attempt, H, try_except_raise.
  now rewrite except_clauses_answer.
Qed.

(** The datastore calls of [query_logistic_db] on a non-empty string. *)
Lemma query_logistic_db_calls (s : string) :
  s <> EmptyString ->
  calls (fst (query_logistic_db db (PStr s)))
  = OpenTable "logistics"
    :: match table_status db "logistics" with
       | None => [Query "logistics" "order_id" (PStr s)]
       | Some _ => []
       end.
Proof.
  intros Hne. destruct (table_status db "logistics") as [e |] eqn:Hopen.
  - rewrite (query_logistic_db_closed db s e Hne Hopen). destruct e; reflexivity.
  - rewrite (query_logistic_db_open db s Hne Hopen).
    destruct (table_query db "logistics" "order_id" (PStr s)) as [e | response].
    + cbn [fst]. apply calls_prelude. destruct e; reflexivity.
    + destruct (dict_get "Items" response) as [items |]; cbn [fst].
      * apply calls_prelude. destruct (truthy items); reflexivity.
      * now apply calls_prelude.
Qed.

End AnswerFacts.

Section Answers.
Import Py Eff PyOps Logistics Spec.
Local Open Scope eff_scope.

(** C1.  Whatever the event and whatever the datastore does, [lambda_handler]
    returns: no exception leaves it, and what it returns is a well-formed
    envelope: version 1.0, status 200, 400 or 500, and one
    [application/json] key holding a string.  That string is a JSON
    serialization: with status 200 it is [json.dumps] of the response the
    query on [order_id] returned, and with status 400 or 500 it is
    [json.dumps] of [{error: message}] for the message of the exception
    caught. *)
Theorem lambda_handler_returns_well_formed (db : dynamodb) (event context : pyval) :
  exists t envelope,
    lambda_handler db event context = (t, inr envelope) /\
    Envelope.well_formed envelope /\
    ((exists s result,
        Envelope.status_code envelope = Some 200%Z /\
        table_query db "logistics" "order_id" (PStr s) = inr result /\
        Envelope.serializes envelope (PDict result)) \/
     (exists ta e,
        attempt db event = (ta, inl e) /\
        Envelope.status_code envelope = Some (snd (answer_of e)) /\
        (snd (answer_of e) = 400%Z \/ snd (answer_of e) = 500%Z) /\
        Envelope.serializes envelope (PDict [("error", PStr (fst (answer_of e)))]))).
Proof.
  destruct (attempt db event) as [ta [e | envelope]] eqn:Hatt.
  - rewrite (lambda_handler_raised db event context ta e Hatt).
    eexists; eexists. split; [reflexivity |]. split.
    + apply well_formed_make. destruct (answer_of_status e); auto.
    + right. exists ta, e. split; [reflexivity |]. split; [reflexivity |].
      split; [apply answer_of_status | apply serializes_error].
  - rewrite lambda_handler_attempt, Hatt, try_except_value.
    exists ta, envelope. split; [reflexivity |].
    destruct (attempt_returns db _ _ _ Hatt)
      as (d & s & result & items & text & ag & hm
          & _ & _ & _ & _ & _ & _ & Hq & _ & Htext & -> & _).
    split; [apply well_formed_make; auto |].
    left. exists s, result. split; [reflexivity |]. split; [exact Hq |].
    now apply serializes_make.
Qed.

(** C8.  Every error answer is [create_error_response] applied to the
    exception caught.  For any message and status the builder returns the
    envelope whose [actionGroup], [apiPath] and [httpMethod] are the string
    [unknown], whose status is the one given and whose body is [json.dumps]
    of [{error: message}].  And whenever [lambda_handler] returns status 400
    or 500, the [try] block raised an exception; message and status are
    those of its [except] clause (the exception's text with 400 for a
    [ValueError] and with 500 for a [LogisticsQueryError],
    [Internal server error] with 500 otherwise), the three fields are
    [unknown] whatever the event held, and the last record logged is that
    clause's. *)
Theorem error_envelope_fields_unknown (db : dynamodb) (event context : pyval) :
  (forall message status,
     exists envelope,
       create_error_response message status = ret envelope /\
       Envelope.response_field "actionGroup" envelope = Some (PStr "unknown") /\
       Envelope.response_field "apiPath" envelope = Some (PStr "unknown") /\
       Envelope.response_field "httpMethod" envelope = Some (PStr "unknown") /\
       Envelope.status_code envelope = Some status /\
       Envelope.serializes envelope (PDict [("error", PStr message)])) /\
  (forall t envelope status,
     lambda_handler db event context = (t, inr envelope) ->
     Envelope.status_code envelope = Some status ->
     (status = 400 \/ status = 500)%Z ->
     exists ta e,
       attempt db event = (ta, inl e) /\
       snd (answer_of e) = status /\
       t = (ta ++ [answer_log e])%list /\
       create_error_response (fst (answer_of e)) status = ret envelope /\
       Envelope.response_field "actionGroup" envelope = Some (PStr "unknown") /\
       Envelope.response_field "apiPath" envelope = Some (PStr "unknown") /\
       Envelope.response_field "httpMethod" envelope = Some (PStr "unknown") /\
       Envelope.serializes envelope (PDict [("error", PStr (fst (answer_of e)))])).
Proof.
  split.
  - intros message status. exists (Envelope.error message status).
    split; [apply create_error_response_eq |].
    destruct (error_fields message status) as (H1 & H2 & H3 & H4).
    repeat (split; [assumption |]). apply serializes_error.
  - intros t envelope status Hrun Hstatus Hs.
    destruct (attempt db event) as [ta [e | env]] eqn:Hatt.
    + rewrite (lambda_handler_raised db event context ta e Hatt) in Hrun.
      injection Hrun as <- <-.
      destruct (error_fields (fst (answer_of e)) (snd (answer_of e))) as (H1 & H2 & H3 & H4).
      rewrite H4 in Hstatus. injection Hstatus as <-.
      exists ta, e. split; [reflexivity |]. split; [reflexivity |].
      split; [reflexivity |]. split; [apply create_error_response_eq |].
      repeat (split; [assumption |]). apply serializes_error.
    + rewrite lambda_handler_attempt, Hatt, try_except_value in Hrun.
      injection Hrun as <- <-.
      destruct (attempt_returns db _ _ _ Hatt)
        as (d & s & result & items & text & ag & hm
            & _ & _ & _ & _ & _ & _ & _ & _ & _ & -> & _).
      cbv in Hstatus. injection Hstatus as <-. destruct Hs; discriminate.
Qed.

Lemma error_envelope_fields_unknown_witness :
  let db := Examples.db_answering (inl Examples.not_found) in
  exists t envelope ta,
    lambda_handler db Examples.so123_event PNone = (t, inr envelope) /\
    Envelope.status_code envelope = Some 500%Z /\
    attempt db Examples.so123_event
    = (ta, inl (LogisticsQueryError "Database query error: Requested resource not found")) /\
    Envelope.response_field "actionGroup" envelope = Some (PStr "unknown") /\
    Envelope.response_field "apiPath" envelope = Some (PStr "unknown") /\
    Envelope.response_field "httpMethod" envelope = Some (PStr "unknown") /\
    Envelope.serializes envelope
      (PDict [("error", PStr "Database query error: Requested resource not found")]).
Proof.
  intros db.
  destruct (lambda_handler db Examples.so123_event PNone) as [t [x | envelope]] eqn:Hrun;
    [vm_compute in Hrun; discriminate |].
  assert (Hstatus : Envelope.status_code envelope = Some 500%Z).
  { vm_compute in Hrun. inversion Hrun. reflexivity. }
  destruct (proj2 (error_envelope_fields_unknown db Examples.so123_event PNone)
              t envelope 500%Z Hrun Hstatus (or_intror eq_refl))
    as (ta & e & Hatt & _ & _ & _ & H1 & H2 & H3 & Hser).
  assert (He : e = LogisticsQueryError "Database query error: Requested resource not found").
  { vm_compute in Hatt. inversion Hatt. reflexivity. }
  subst e. exists t, envelope, ta.
  repeat (split; [assumption || reflexivity |]). exact Hser.
Defined.

End Answers.

(* ===================================================================== *)
(** ** Properties of routing *)
(* ===================================================================== *)

Section Routing.
Import Py Eff PyOps Logistics Spec.
Local Open Scope eff_scope.

(** C5.  Routing compares [apiPath] with the one supported path by
    equality.  On an event with the three required fields:
    - when [apiPath] is that exact string, no routing warning is logged and
      the run goes on to parameter extraction and the query: with a
      parameter list of mappings, a missing or empty [SalesOrderID] is
      answered with status 400 and the missing-parameter message, and a
      non-empty string [SalesOrderID] makes the run open the [logistics]
      table and, once it opened, query it for that string;
    - for any other value, a concrete path such as [/salesorder/SO123]
      included, the routing warning is logged, the answer is status 400
      with the message [Invalid API path: <apiPath>], and the datastore is
      not touched.  This half is stated for the values whose [str] cannot
      raise, which every string is. *)
Theorem routing_is_string_equality (db : dynamodb) (d : pydict)
    (context api_path : pyval) :
  first_missing d = None ->
  dict_get "apiPath" d = Some api_path ->
  (api_path = PStr supported_path ->
     filter is_routing_warning (trace (lambda_handler db (PDict d) context)) = [] /\
     forall ps,
       dict_get "parameters" d = Some (PList ps) ->
       forallb is_mapping ps = true ->
       (find is_sales_order_entry ps = None \/
        (exists p, find is_sales_order_entry ps = Some p /\ truthy (entry_value p) = false) ->
        outcome (lambda_handler db (PDict d) context)
          = inr (Envelope.error missing_parameter 400) /\
        calls (trace (lambda_handler db (PDict d) context)) = []) /\
       (forall p s,
          find is_sales_order_entry ps = Some p ->
          entry_value p = PStr s ->
          s <> EmptyString ->
          calls (trace (lambda_handler db (PDict d) context))
          = OpenTable "logistics"
            :: match table_status db "logistics" with
               | None => [Query "logistics" "order_id" (PStr s)]
               | Some _ => []
               end)) /\
  (api_path <> PStr supported_path ->
   formats_plainly api_path = true ->
     exists t,
       lambda_handler db (PDict d) context
       = (t, inr (Envelope.error ("Invalid API path: " ++ str api_path) 400)) /\
       In (invalid_path_record api_path) t /\
       calls t = []).
Proof.
  intros Hv Ha. rewrite (lambda_handler_validated db d context _ Hv Ha). split.
  - intros ->. cbn [eq_str]. rewrite String.eqb_refl. split.
    { unfold trace. rewrite guarded_query_calls.
      - apply extract_and_query_no_routing_warning.
      - reflexivity.
      - apply except_clauses_no_routing_warning. }
    intros ps Hp Hall. rewrite (extract_and_query_mappings db d ps Hp Hall). split.
    + intros [Hnone | (p & Hsome & Hfalsy)].
      * rewrite Hnone. split; reflexivity.
      * rewrite Hsome. cbv zeta. rewrite Hfalsy. split; reflexivity.
    + intros p s Hsome Hval Hne. rewrite Hsome, Hval. cbv zeta.
      rewrite (truthy_nonempty s Hne). cbn [negb]. unfold trace, calls.
      rewrite guarded_query_calls.
      * now apply query_logistic_db_calls.
      * reflexivity.
      * apply except_clauses_no_call.
  - intros Hne _. rewrite (eq_str_false _ _ Hne).
    eexists. split; [reflexivity |]. split; [| reflexivity].
    cbn. auto.
Qed.

Lemma routing_is_string_equality_witness :
  let api_path := PStr "/salesorder/SO123" in
  let d := Examples.fields_with_path api_path in
  let db := Examples.db_answering (inr Examples.so123_result) in
  (first_missing d = None /\
   dict_get "apiPath" d = Some api_path /\
   api_path <> PStr supported_path /\
   formats_plainly api_path = true /\
   exists t,
     lambda_handler db (PDict d) PNone
     = (t, inr (Envelope.error "Invalid API path: /salesorder/SO123" 400)) /\
     In (invalid_path_record api_path) t /\
     calls t = []) /\
  (first_missing Examples.so123_fields = None /\
   dict_get "apiPath" Examples.so123_fields = Some (PStr supported_path) /\
   calls (trace (lambda_handler db Examples.so123_event PNone))
   = [OpenTable "logistics"; Query "logistics" "order_id" (PStr "SO123")]).
Proof.
  intros api_path d db. split.
  - assert (Hne : api_path <> PStr supported_path) by discriminate.
    repeat (split; [first [reflexivity | exact Hne] |]).
    exact (proj2 (routing_is_string_equality db d PNone api_path eq_refl eq_refl)
             Hne eq_refl).
  - split; [reflexivity |]. split; [reflexivity |].
    refine (proj2 (proj2 (proj1 (routing_is_string_equality db Examples.so123_fields PNone
                                   (PStr supported_path) eq_refl eq_refl) eq_refl)
                     [PDict [("name", PStr "SalesOrderID"); ("value", PStr "SO123")]]
                     eq_refl eq_refl)
              (PDict [("name", PStr "SalesOrderID"); ("value", PStr "SO123")]) "SO123"
              eq_refl eq_refl _).
    discriminate.
Defined.

End Routing.
